(** * Rollup configuration generator of sentry-javascript (rollup.config.js)

    A shallow embedding of the helpers [getLastElement] and [insertAt] and of
    the config builders [makeBaseBundleConfig], [makeBundleConfigVariants] and
    [makeBaseNPMConfig].

    JavaScript arrays and objects are mutable and passed by reference, so they
    live in an explicit store; a function of the source becomes a computation
    in a state-and-exception monad over that store. *)

From Stdlib Require Import ZArith Ascii.
From stdpp Require Import base list strings gmap.

Open Scope string_scope.
Open Scope list_scope.
Open Scope Z_scope.

(** ** Errors and outcomes *)

(** What a call can throw.  [TypeError] is the engine's error for a property
    read on [undefined]; [AssertionError] is what node's [assert] throws, with
    its message; [ExecError] is a failed [execSync].  [Fault] is not a
    JavaScript exception: it marks a reference that does not denote an object
    of the expected shape, which a well-formed store never produces. *)
Inductive error : Type :=
| TypeError
| AssertionError (message : string)
| ExecError
| Fault.

Inductive outcome (A : Type) : Type :=
| Ok (a : A)
| Throw (e : error).
Arguments Ok {A} a.
Arguments Throw {A} e.


(** ** The store *)

(** References into the store. *)
Abbreviation loc := nat.

(** The part of rollup's output options that the bundle configs set.  A field
    is [None] when the object has no such key. *)
Record OutputSpec : Type := mkOutput {
  file : option string;
  format : option string;
  out_name : option string;
  sourcemap : option bool;
  strict : option bool;
  esModule : option bool;
  banner : option string;
  intro : option string;
  outro : option string;
  footer : option string
}.

(** A rollup config object: [output] and [plugins] are references. *)
Record BuildConfig : Type := mkConfig {
  input : option string;
  output : option loc;
  plugins : option loc;
  treeshake : option string;
  context : option string
}.

(** An object of the store: an array with elements of type [E], an output
    object or a config object. *)
Inductive cell (E : Type) : Type :=
| CArr (elems : list E)
| COut (o : OutputSpec)
| CCfg (c : BuildConfig).
Arguments CArr {E} elems.
Arguments COut {E} o.
Arguments CCfg {E} c.

Abbreviation Store E := (list (cell E)).

(** Computations: read and extend the store, return a value or throw. *)
Definition Js (E A : Type) : Type := Store E → outcome (A * Store E).

Section Heap.
Context {E : Type}.
Local Abbreviation Js := (Js E).
Local Abbreviation cell := (cell E).

Definition ret {A} (a : A) : Js A := fun σ => Ok (a, σ).

Definition bind {A B} (m : Js A) (k : A → Js B) : Js B :=
  fun σ => match m σ with
           | Ok (a, σ') => k a σ'
           | Throw e => Throw e
           end.

Definition throw {A} (e : error) : Js A := fun _ => Throw e.

(** A fresh object: the next free location. *)
Definition alloc (c : cell) : Js loc := fun σ => Ok (length σ, σ ++ [c]).

Definition readArr (l : loc) : Js (list E) :=
  fun σ => match σ !! l with
           | Some (CArr elems) => Ok (elems, σ)
           | _ => Throw Fault
           end.

Definition readOut (l : loc) : Js OutputSpec :=
  fun σ => match σ !! l with
           | Some (COut o) => Ok (o, σ)
           | _ => Throw Fault
           end.

Definition readCfg (l : loc) : Js BuildConfig :=
  fun σ => match σ !! l with
           | Some (CCfg c) => Ok (c, σ)
           | _ => Throw Fault
           end.

(** In-place update of an existing object. *)
Definition writeCell (l : loc) (c : cell) : Js unit :=
  fun σ => match σ !! l with
           | Some _ => Ok (tt, <[l := c]> σ)
           | None => Throw Fault
           end.
End Heap.


Notation "'let*' x ':=' m 'in' k" := (bind m (fun x => k))
  (at level 10, x pattern, m at level 100, k at level 200, only parsing).
Notation "m ';;' k" := (bind m (fun _ => k))
  (at level 100, k at level 200, right associativity, only parsing).

(** ** Array helpers *)

Section Arrays.
Context {E : Type}.

(** [Array.prototype.splice]: a negative [start] counts from the end and is
    clamped at 0, a [start] past the end is clamped to the length; the
    number of removed elements is clamped to what is left. *)
Definition spliceStart (len start : Z) : Z :=
  if start <? 0 then Z.max (len + start) 0 else Z.min start len.

Definition spliceDeleteCount (len actualStart deleteCount : Z) : Z :=
  Z.min (Z.max deleteCount 0) (len - actualStart).

Definition spliced (elems : list E) (start deleteCount : Z) (items : list E)
  : list E :=
  let len := Z.of_nat (length elems) in
  let actualStart := spliceStart len start in
  let actualDeleteCount := spliceDeleteCount len actualStart deleteCount in
  take (Z.to_nat actualStart) elems ++ items
    ++ drop (Z.to_nat (actualStart + actualDeleteCount)) elems.

(** [arr.splice(start, deleteCount, ...items)] changes [arr] in place and
    returns the removed elements. *)
Definition splice (arr : loc) (start deleteCount : Z) (items : list E)
  : Js E (list E) :=
  let* elems := readArr arr in
  let len := Z.of_nat (length elems) in
  let actualStart := spliceStart len start in
  let actualDeleteCount := spliceDeleteCount len actualStart deleteCount in
  writeCell arr (CArr (spliced elems start deleteCount items));;
  ret (take (Z.to_nat actualDeleteCount) (drop (Z.to_nat actualStart) elems)).

(** [array[array.length - 1]]: [None] is [undefined], for the empty array. *)
Definition getLastElement (array : loc) : Js E (option E) :=
  let* elems := readArr array in
  let i := Z.of_nat (length elems) - 1 in
  ret (if i <? 0 then None else elems !! Z.to_nat i).

Definition insertAt (arr : loc) (index : Z) (insertees : list E)
  : Js E loc :=
  let* elems := readArr arr in
  let* newArr := alloc (CArr elems) in
  let destinationIndex :=
    if index >=? 0 then index else Z.of_nat (length elems) + 1 + index in
  splice newArr destinationIndex 0 insertees;;
  ret newArr.
End Arrays.

(** ** Plugins *)

(** A plugin instance, by the factory that made it and the options this file
    passes.  [custom] stands for any other plugin a caller puts in a pipeline
    (the integrations config injects [commonjs] this way). *)
Inductive Plugin : Type :=
| license (content title : string)
| resolve
| regexReplace (test replacement : string)
| replace (preventAssignment : bool) (key : string) (value : bool)
| sucrase (transforms : list string)
| terser
| typescript (target : string)
| custom (name : string).

(** The [name] property the plugin libraries give their instances.  The source
    depends on one of them only, that of the license plugin. *)
Definition name (p : Plugin) : string :=
  match p with
  | license _ _ => "rollup-plugin-license"
  | resolve => "node-resolve"
  | regexReplace _ _ => "re"
  | replace _ _ _ => "replace"
  | sucrase _ => "sucrase"
  | terser => "terser"
  | typescript _ => "rpt2"
  | custom n => n
  end.

Definition nodeResolvePlugin : Plugin := resolve.

Definition terserPlugin : Plugin := terser.

Definition makeIsDebugBuildPlugin (includeDebugging : bool) : Plugin :=
  replace true "__SENTRY_DEBUG__" includeDebugging.

(** ** What the module reads from its surroundings *)

(** A [package.json] object as far as this file reads it.  An object is its
    list of own keys with their values, in the order of [Object.keys]; [None]
    is a missing (or null) category. *)
Record Manifest : Type := mkManifest {
  dependencies : option (list (string * string));
  devDependencies : option (list (string * string));
  peerDependencies : option (list (string * string))
}.

(** [builtinModules] of node's [module], the [package.json] of the working
    directory, and the trimmed output of [git rev-parse --short HEAD], [None]
    when the command fails. *)
Record Env : Type := mkEnv {
  builtinModules : list string;
  packageDotJSON : Manifest;
  commitHash : option string
}.

Definition makeLicensePlugin (env : Env) (title : string) : Js Plugin Plugin :=
  match commitHash env with
  | None => throw ExecError
  | Some hash =>
      ret (license
             ("/*! <%= data.title %> <%= pkg.version %> (" +:+ hash
                +:+ ") | https://github.com/getsentry/sentry-javascript */")
             title)
  end.

(** ** deepmerge

    The [deepmerge] package is imported by the source and is not part of the
    repository; it is modelled on config-shaped objects. *)

Section DeepMerge.
Context {E : Type}.

Definition mergeField {A} (target source : option A) : option A :=
  match source with
  | Some v => Some v
  | None => target
  end.

Definition mergeOutput (t s : OutputSpec) : OutputSpec :=
  {| file := mergeField (file t) (file s);
     format := mergeField (format t) (format s);
     out_name := mergeField (out_name t) (out_name s);
     sourcemap := mergeField (sourcemap t) (sourcemap s);
     strict := mergeField (strict t) (strict s);
     esModule := mergeField (esModule t) (esModule s);
     banner := mergeField (banner t) (banner s);
     intro := mergeField (intro t) (intro s);
     outro := mergeField (outro t) (outro s);
     footer := mergeField (footer t) (footer s) |}.

(** The default strategy: a new array, the target's elements followed by
    the source's. *)
Definition defaultArrayMerge (target source : loc) : Js E loc :=
  let* t := readArr target in
  let* s := readArr source in
  alloc (CArr (t ++ s)).

Definition emptyOutput : OutputSpec :=
  mkOutput None None None None None None None None None None.

(** A field holding an object: merged when both sides have it, else a copy
    of the side that has it. *)
Definition deepMergeOutput (target source : option loc)
  : Js E (option loc) :=
  match target, source with
  | None, None => ret None
  | _, _ =>
      let* t := match target with
                | Some l => readOut l
                | None => ret emptyOutput
                end in
      let* s := match source with
                | Some l => readOut l
                | None => ret emptyOutput
                end in
      let* merged := alloc (COut (mergeOutput t s)) in
      ret (Some merged)
  end.

(** A field holding an array: the strategy applied to both sides, or to a
    new empty array and the one side that has it. *)
Definition deepMergeArray (arrayMerge : loc → loc → Js E loc)
    (target source : option loc) : Js E (option loc) :=
  match target, source with
  | None, None => ret None
  | Some t, Some s => let* merged := arrayMerge t s in ret (Some merged)
  | Some v, None | None, Some v =>
      let* empty := alloc (CArr []) in
      let* merged := arrayMerge empty v in
      ret (Some merged)
  end.

(** Modelled from the spec: the [deepmerge] package, which the source
    imports.  The spec's DeepMerger merges the override onto the base
    recursively (scalar fields: the override wins; nested objects: recurse;
    arrays: the caller's array strategy), mutates neither input and returns
    a new structure.  [arrayMerge] is the strategy, a function of the two
    arrays as in the package's options. *)
Definition deepMerge (target source : loc)
    (arrayMerge : loc → loc → Js E loc) : Js E loc :=
  let* t := readCfg target in
  let* s := readCfg source in
  let* out := deepMergeOutput (output t) (output s) in
  let* pl := deepMergeArray arrayMerge (plugins t) (plugins s) in
  alloc (CCfg {| input := mergeField (input t) (input s);
                 output := out;
                 plugins := pl;
                 treeshake := mergeField (treeshake t) (treeshake s);
                 context := mergeField (context t) (context s) |}).

Fixpoint mapJs {A B} (f : A → Js E B) (xs : list A) : Js E (list B) :=
  match xs with
  | [] => ret []
  | x :: rest =>
      let* y := f x in
      let* ys := mapJs f rest in
      ret (y :: ys)
  end.
End DeepMerge.

(** ** Bundle configs *)

Module BundleOptions.
Record t : Type := mk {
  input : string;
  isAddOn : bool;
  jsVersion : string;
  licenseTitle : string;
  outputFileBase : string
}.
End BundleOptions.

Definition lowerAscii (c : ascii) : ascii :=
  let n := nat_of_ascii c in
  if ((65 <=? n) && (n <=? 90))%nat then ascii_of_nat (n + 32) else c.

Fixpoint toLowerCase (s : string) : string :=
  match s with
  | EmptyString => EmptyString
  | String c rest => String (lowerAscii c) (toLowerCase rest)
  end.

Definition newline : string := String (ascii_of_nat 10) EmptyString.

(** A template literal prints a missing value as the word undefined. *)
Definition template (v : option string) : string :=
  match v with
  | Some s => s
  | None => "undefined"
  end.

(** A property read on a value that may be [undefined]. *)
Definition defined {E A} (v : option A) : Js E A :=
  match v with
  | Some a => ret a
  | None => throw TypeError
  end.

(** node's [assert(value, message)]. *)
Definition assert {E} (value : bool) (message : string) : Js E unit :=
  if value then ret tt else throw (AssertionError message).

Definition makeBaseBundleConfig (env : Env) (options : BundleOptions.t)
  : Js Plugin loc :=
  let input := BundleOptions.input options in
  let isAddOn := BundleOptions.isAddOn options in
  let jsVersion := BundleOptions.jsVersion options in
  let licenseTitle := BundleOptions.licenseTitle options in
  let outputFileBase := BundleOptions.outputFileBase options in
  let typescriptPluginES5 := typescript "es5" in
  let typescriptPluginES6 := typescript "es6" in
  let markAsBrowserBuildPlugin := replace true "__SENTRY_BROWSER_BUNDLE__" true in
  let* licensePlugin := makeLicensePlugin env licenseTitle in
  let* standAloneOutput :=
    alloc (COut {| file := None; format := Some "iife"; out_name := Some "Sentry";
                   sourcemap := None; strict := None; esModule := None;
                   banner := None; intro := None; outro := None;
                   footer := None |}) in
  let* standAloneBundleConfig :=
    alloc (CCfg {| input := None; output := Some standAloneOutput;
                   plugins := None; treeshake := None;
                   context := Some "window" |}) in
  let* addOnOutput :=
    alloc (COut {| file := None; format := Some "cjs"; out_name := None;
                   sourcemap := None; strict := None; esModule := None;
                   banner := Some "(function (__window) {";
                   intro := Some "var exports = {};";
                   outro := Some (String.concat newline
                     [ "";
                       "  // Add this module's exports to the global `Sentry.Integrations`";
                       "  __window.Sentry = __window.Sentry || {};";
                       "  __window.Sentry.Integrations = __window.Sentry.Integrations || {};";
                       "  for (var key in exports) {";
                       "    if (Object.prototype.hasOwnProperty.call(exports, key)) {";
                       "      __window.Sentry.Integrations[key] = exports[key];";
                       "    }";
                       "  }" ]);
                   footer := Some "}(window));" |}) in
  let* addOnBundleConfig :=
    alloc (CCfg {| input := None; output := Some addOnOutput; plugins := None;
                   treeshake := None; context := None |}) in
  let* sharedOutput :=
    alloc (COut {| file := Some ("build/" +:+ outputFileBase); format := None;
                   out_name := None; sourcemap := Some true;
                   strict := Some false; esModule := Some false;
                   banner := None; intro := None; outro := None;
                   footer := None |}) in
  let* sharedPlugins :=
    alloc (CArr [ if String.eqb (toLowerCase jsVersion) "es5"
                  then typescriptPluginES5 else typescriptPluginES6;
                  markAsBrowserBuildPlugin;
                  nodeResolvePlugin;
                  licensePlugin ]) in
  let* sharedBundleConfig :=
    alloc (CCfg {| input := Some input; output := Some sharedOutput;
                   plugins := Some sharedPlugins;
                   treeshake := Some "smallest"; context := None |}) in
  deepMerge sharedBundleConfig
    (if isAddOn then addOnBundleConfig else standAloneBundleConfig)
    defaultArrayMerge.

(** One entry of [variantSpecificConfigs]: the object literal with its
    [output] object and the array [insertAt] returns. *)
Definition variantSpecificConfig (fileName : string) (plugins : loc)
    (insertees : list Plugin) : Js Plugin loc :=
  let* out :=
    alloc (COut {| file := Some fileName; format := None; out_name := None;
                   sourcemap := None; strict := None; esModule := None;
                   banner := None; intro := None; outro := None;
                   footer := None |}) in
  let* spliced := insertAt plugins (-2) insertees in
  alloc (CCfg {| input := None; output := Some out; plugins := Some spliced;
                 treeshake := None; context := None |}).

Definition makeBundleConfigVariants (baseConfig : loc)
  : Js Plugin (list loc) :=
  let* base := readCfg baseConfig in
  let includeDebuggingPlugin := makeIsDebugBuildPlugin true in
  let stripDebuggingPlugin := makeIsDebugBuildPlugin false in
  let* plugins := defined (plugins base) in
  let* last := getLastElement plugins in
  let* lastPlugin := defined last in
  assert (String.eqb (name lastPlugin) "rollup-plugin-license")
    ("Last plugin in given options should be `rollup-plugin-license`. Found "
       +:+ name lastPlugin);;
  let* baseOutput := defined (output base) in
  let* out := readOut baseOutput in
  let* plain :=
    variantSpecificConfig (template (file out) +:+ ".js") plugins
      [includeDebuggingPlugin] in
  let* min :=
    variantSpecificConfig (template (file out) +:+ ".min.js") plugins
      [stripDebuggingPlugin; terserPlugin] in
  let* debugMin :=
    variantSpecificConfig (template (file out) +:+ ".debug.min.js") plugins
      [includeDebuggingPlugin; terserPlugin] in
  let variantSpecificConfigs := [plain; min; debugMin] in
  mapJs (fun variant =>
           deepMerge baseConfig variant (fun first second => ret second))
    variantSpecificConfigs.

(** ** Package configs *)

(** The JavaScript values an option can hold, as far as truthiness goes. *)
Inductive jsval : Type :=
| JUndefined
| JNull
| JBool (b : bool)
| JNumber (n : Z)
| JNaN
| JString (s : string)
| JObject.

Definition truthy (v : jsval) : bool :=
  match v with
  | JUndefined | JNull | JNaN => false
  | JBool b => b
  | JNumber n => negb (n =? 0)
  | JString s => negb (String.eqb s "")
  | JObject => true
  end.

Module NPM.
Record Options : Type := mkOptions {
  entrypoint : jsval;
  esModuleInterop : jsval
}.

Record Output : Type := mkOutput {
  sourcemap : bool;
  preserveModules : bool;
  generatedCode : string;
  strict : bool;
  externalLiveBindings : bool;
  interop : string
}.

Record Config : Type := mkConfig {
  input : jsval;
  output : Output;
  plugins : list Plugin;
  external : list string;
  treeshake : bool
}.
End NPM.

(** [Object.keys(obj || {})]. *)
Definition keysOrEmpty (obj : option (list (string * string))) : list string :=
  match obj with
  | Some entries => map fst entries
  | None => []
  end.

(** [options] is [None] when the caller passes no argument; the default
    parameter then makes it the empty object. *)
Definition makeBaseNPMConfig (env : Env) (options : option NPM.Options)
  : NPM.Config :=
  let options := match options with
                 | Some o => o
                 | None => NPM.mkOptions JUndefined JUndefined
                 end in
  let entrypoint := NPM.entrypoint options in
  let esModuleInterop := NPM.esModuleInterop options in
  let sucrasePlugin := sucrase ["typescript"] in
  let constToVarPlugin := regexReplace "const " "var " in
  {| NPM.input := if truthy entrypoint then entrypoint
                  else JString "src/index.ts";
     NPM.output :=
       {| NPM.sourcemap := true;
          NPM.preserveModules := true;
          NPM.generatedCode := "es2015";
          NPM.strict := false;
          NPM.externalLiveBindings := false;
          NPM.interop := if truthy esModuleInterop then "auto" else "esModule" |};
     NPM.plugins := [nodeResolvePlugin; sucrasePlugin; constToVarPlugin];
     NPM.external :=
       builtinModules env
         ++ keysOrEmpty (dependencies (packageDotJSON env))
         ++ keysOrEmpty (devDependencies (packageDotJSON env))
         ++ keysOrEmpty (peerDependencies (packageDotJSON env));
     NPM.treeshake := false |}.

(** ** Reading results back *)

Section Observers.
Context {E : Type}.

Definition arrayAt (σ : Store E) (l : loc) : option (list E) :=
  match σ !! l with
  | Some (CArr elems) => Some elems
  | _ => None
  end.

Definition outputAt (σ : Store E) (l : loc) : option OutputSpec :=
  match σ !! l with
  | Some (COut o) => Some o
  | _ => None
  end.

Definition configAt (σ : Store E) (l : loc) : option BuildConfig :=
  match σ !! l with
  | Some (CCfg c) => Some c
  | _ => None
  end.

(** The plugin array of the config object at [l]. *)
Definition pluginsOf (σ : Store E) (l : loc) : option (list E) :=
  match configAt σ l with
  | Some c => match plugins c with
              | Some p => arrayAt σ p
              | None => None
              end
  | None => None
  end.

(** The [output.file] of the config object at [l]. *)
Definition fileOf (σ : Store E) (l : loc) : option string :=
  match configAt σ l with
  | Some c => match output c with
              | Some o => match outputAt σ o with
                          | Some out => file out
                          | None => None
                          end
              | None => None
              end
  | None => None
  end.

(** The array a call returned, if it returned one. *)
Definition returnedArray (r : outcome (loc * Store E)) : option (list E) :=
  match r with
  | Ok (l, σ) => arrayAt σ l
  | Throw _ => None
  end.
End Observers.

(** ** The objects a call of makeBundleConfigVariants creates *)

(** The literal [{ file: fileName }]. *)
Definition fileOnly (fileName : string) : OutputSpec :=
  {| file := Some fileName; format := None; out_name := None;
     sourcemap := None; strict := None; esModule := None;
     banner := None; intro := None; outro := None; footer := None |}.

(** [insertAt(plugins, -2, ...insertees)] on the elements. *)
Definition splicedIn (ps insertees : list Plugin) : list Plugin :=
  spliced ps (Z.of_nat (length ps) + 1 + -2) 0 insertees.

(** The three objects one entry of [variantSpecificConfigs] adds to a store
    of [n] objects. *)
Definition variantCells (n : nat) (fileName : string)
    (ps insertees : list Plugin) : list (cell Plugin) :=
  [ COut (fileOnly fileName);
    CArr (splicedIn ps insertees);
    CCfg {| input := None; output := Some n; plugins := Some (n + 1)%nat;
            treeshake := None; context := None |} ].

(** The two objects merging the base [b], with output object [o], and the
    variant with output at [vo] and plugins at [vp] adds to a store of [n]
    objects. *)
Definition mergedCells (n : nat) (b : BuildConfig) (o : OutputSpec)
    (fileName : string) (vp : loc) : list (cell Plugin) :=
  [ COut (mergeOutput o (fileOnly fileName));
    CCfg {| input := input b; output := Some n; plugins := Some vp;
            treeshake := treeshake b; context := context b |} ].

(** All fifteen, for a store of [n] objects. *)
Definition bundleVariantCells (n : nat) (b : BuildConfig) (o : OutputSpec)
    (ps : list Plugin) : list (cell Plugin) :=
  let f := template (file o) in
  variantCells n (f +:+ ".js") ps [makeIsDebugBuildPlugin true]
  ++ variantCells (n + 3) (f +:+ ".min.js") ps
       [makeIsDebugBuildPlugin false; terserPlugin]
  ++ variantCells (n + 6) (f +:+ ".debug.min.js") ps
       [makeIsDebugBuildPlugin true; terserPlugin]
  ++ mergedCells (n + 9) b o (f +:+ ".js") (n + 1)
  ++ mergedCells (n + 11) b o (f +:+ ".min.js") (n + 4)
  ++ mergedCells (n + 13) b o (f +:+ ".debug.min.js") (n + 7).

(** ** Base configs *)

(** The name the assertion of [makeBundleConfigVariants] asks of the last
    plugin. *)
Definition licensePluginName : string := "rollup-plugin-license".

(** In [σ], [baseConfig] is a config object [b] whose [plugins] is an array
    with elements [ps] and whose [output] is an object [o]. *)
Definition BundleBase (σ : Store Plugin) (baseConfig : loc) (b : BuildConfig)
    (ps : list Plugin) (o : OutputSpec) : Prop :=
  σ !! baseConfig = Some (CCfg b)
  ∧ (∃ pl, plugins b = Some pl ∧ σ !! pl = Some (CArr ps))
  ∧ (∃ ol, output b = Some ol ∧ σ !! ol = Some (COut o)).

(** The pipeline ends with the license plugin. *)
Definition licenseLast (ps : list Plugin) : Prop :=
  ∃ lic, last ps = Some lic ∧ name lic = licensePluginName.

(** The objects a config owns: itself, its plugin array and its output
    object. *)
Definition ownedBy (σ : Store Plugin) (l : loc) : list loc :=
  match configAt σ l with
  | Some c => l :: option_list (plugins c) ++ option_list (output c)
  | None => []
  end.


(** ** A sample base config *)

Definition markAsBrowserBuildPlugin : Plugin :=
  replace true "__SENTRY_BROWSER_BUNDLE__" true.

Definition sampleLicense : Plugin := license "/*! banner */" "Sentry".

Definition sampleOutput : OutputSpec :=
  {| file := Some "build/bundle"; format := Some "iife";
     out_name := Some "Sentry"; sourcemap := Some true; strict := Some false;
     esModule := Some false; banner := None; intro := None; outro := None;
     footer := None |}.

Definition sampleBase : BuildConfig :=
  {| input := Some "src/index.ts"; output := Some 1%nat;
     plugins := Some 2%nat; treeshake := Some "smallest";
     context := Some "window" |}.

(** A store with the config at 0, its output at 1 and its plugins at 2. *)
Definition sampleStore (ps : list Plugin) : Store Plugin :=
  [CCfg sampleBase; COut sampleOutput; CArr ps].

(** ** Sample surroundings *)

Definition sampleManifest : Manifest :=
  {| dependencies := Some [("a", "1")];
     devDependencies := Some [("b", "2")];
     peerDependencies := Some [] |}.

Definition sampleEnv : Env :=
  {| builtinModules := ["fs"; "path"];
     packageDotJSON := sampleManifest;
     commitHash := Some "abc1234" |}.

Definition sampleOptions : BundleOptions.t :=
  BundleOptions.mk "src/index.ts" false "es5" "Sentry" "bundle".

(** The config a call returned, read back as its plugin array. *)
Definition returnedPlugins (r : outcome (loc * Store Plugin))
  : option (list Plugin) :=
  match r with
  | Ok (l, σ) => pluginsOf σ l
  | Throw _ => None
  end.

(** ** The postbuild script

    The script that prepares [build/npm] for publishing: it checks that the
    build directory exists, copies the non-code assets into it, and edits
    the copied [package.json].  Its statements are top-level; each step is
    a definition here.  The copy of the CDN bundles in between is
    asynchronous and is not part of the model. *)

Module Postbuild.

Definition NPM_BUILD_DIR : string := "build/npm".

Definition ASSETS : list string :=
  ["README.md"; "LICENSE"; "package.json"; ".npmignore"].

Definition ENTRY_POINTS : list string := ["main"; "module"; "types"].

(** *** The file system *)

(** A path, relative to the working directory, names a regular file with
    its content or a directory. *)
Inductive entry : Type :=
| File (content : string)
| Dir.

(** The files and what was written with [console.error]. *)
Record World : Type := mkWorld {
  fs : gmap string entry;
  stderr : list string
}.

(** How a step ends: the script goes on, [process.exit] was called, or a
    file-system call threw and nothing caught it. *)
Inductive result : Type :=
| Continue (w : World)
| Exit (code : Z) (w : World)
| Uncaught (w : World).

Definition existsSync (path : string) (w : World) : bool :=
  match fs w !! path with
  | Some _ => true
  | None => false
  end.

(** [console.error(message)]. *)
Definition consoleError (message : string) (w : World) : World :=
  {| fs := fs w; stderr := stderr w ++ [message] |}.

(** [path.resolve(dir, name)], relative to the working directory. *)
Definition resolve2 (dir name : string) : string := dir +:+ "/" +:+ name.

(** The part of a path before its last slash, if it has one. *)
Fixpoint beforeLastSlash (path : string) : option string :=
  match path with
  | EmptyString => None
  | String c rest =>
      match beforeLastSlash rest with
      | Some d => Some (String c d)
      | None => if Ascii.eqb c "/"%char then Some EmptyString else None
      end
  end.

(** The directory a relative path lies in. *)
Definition dirname (path : string) : string :=
  match beforeLastSlash path with
  | Some EmptyString => "/"
  | Some d => d
  | None => "."
  end.

(** [fs.copyFileSync(src, dest)]: [src] has to be a regular file, the
    directory of [dest] has to exist and [dest] must not be a directory;
    an existing file at [dest] is overwritten. *)
Definition copyFileSync (src dest : string) (w : World) : result :=
  match fs w !! src with
  | Some (File content) =>
      match fs w !! dirname dest, fs w !! dest with
      | Some Dir, None | Some Dir, Some (File _) =>
          Continue {| fs := <[dest := File content]> (fs w);
                      stderr := stderr w |}
      | _, _ => Uncaught w
      end
  | _ => Uncaught w
  end.

(** The check that the build directory exists. *)
Definition checkBuildDir (w : World) : result :=
  if negb (existsSync NPM_BUILD_DIR w)
  then Exit 1
         (consoleError
            "This script should only be executed after you've run `yarn build`."
            (consoleError
               ("Directory " +:+ NPM_BUILD_DIR +:+ " DOES NOT exist") w))
  else Continue w.

(** The body of the loop over the assets. *)
Definition copyAsset (asset : string) (w : World) : result :=
  let assetPath := asset in
  if negb (existsSync assetPath w)
  then Exit 1 (consoleError ("Asset " +:+ asset +:+ " does not exist.") w)
  else copyFileSync asset (resolve2 NPM_BUILD_DIR asset) w.

(** [assets.forEach]: the loop ends at the first exit. *)
Fixpoint forEachAsset (assets : list string) (w : World) : result :=
  match assets with
  | [] => Continue w
  | asset :: rest =>
      match copyAsset asset w with
      | Continue w' => forEachAsset rest w'
      | stopped => stopped
      end
  end.

(** The script up to the copy of the assets. *)
Definition copyAssets (w : World) : result :=
  match checkBuildDir w with
  | Continue w' => forEachAsset ASSETS w'
  | stopped => stopped
  end.

(** *** The edit of package.json *)

(** The rest of [s] after [pattern], when [s] starts with it. *)
Fixpoint stripPrefix (pattern s : string) : option string :=
  match pattern, s with
  | EmptyString, _ => Some s
  | String a pattern', String b s' =>
      if Ascii.eqb a b then stripPrefix pattern' s' else None
  | String _ _, EmptyString => None
  end.

(** [s.replace(pattern, replacement)] for a string pattern and a
    replacement without dollar signs: the first occurrence is replaced. *)
Fixpoint replaceFirst (pattern replacement s : string) : string :=
  match stripPrefix pattern s with
  | Some rest => replacement +:+ rest
  | None =>
      match s with
      | EmptyString => EmptyString
      | String c s' => String c (replaceFirst pattern replacement s')
      end
  end.

(** The parsed [package.json], typed by the script as a map from strings to
    strings.  [pkgJson[key]] is truthy when the key is there with a
    non-empty value. *)
Definition truthyAt (pkgJson : gmap string string) (key : string) : bool :=
  match pkgJson !! key with
  | Some v => negb (String.eqb v "")
  | None => false
  end.

(** The body of the loop over the entry points; [replace] on [undefined]
    would throw. *)
Definition rewriteEntryPoint (pkgJson : gmap string string)
    (entryPoint : string) : outcome (gmap string string) :=
  match pkgJson !! entryPoint with
  | Some v =>
      Ok (<[entryPoint := replaceFirst (NPM_BUILD_DIR +:+ "/") "" v]> pkgJson)
  | None => Throw TypeError
  end.

Fixpoint forEachEntryPoint (entryPoints : list string)
    (pkgJson : gmap string string) : outcome (gmap string string) :=
  match entryPoints with
  | [] => Ok pkgJson
  | entryPoint :: rest =>
      match rewriteEntryPoint pkgJson entryPoint with
      | Ok pkgJson' => forEachEntryPoint rest pkgJson'
      | Throw e => Throw e
      end
  end.

(** From the filter of the entry points to the last [delete]. *)
Definition modifyPackageJson (pkgJson : gmap string string)
  : outcome (gmap string string) :=
  match forEachEntryPoint (List.filter (truthyAt pkgJson) ENTRY_POINTS)
          pkgJson with
  | Ok pkgJson' =>
      Ok (delete "jest" (delete "volta" (delete "scripts" pkgJson')))
  | Throw e => Throw e
  end.

End Postbuild.

(** * Properties *)

(** ** The store *)

Section StoreFacts.
Context {E : Type}.
Implicit Types (σ τ : Store E) (c : cell E) (l : loc).

Lemma lookup_old σ τ l c : σ !! l = Some c → (σ ++ τ) !! l = Some c.
Proof. apply lookup_app_l_Some. Qed.

Lemma lookup_new σ τ (k : nat) : (σ ++ τ) !! (length σ + k)%nat = τ !! k.
Proof.
  rewrite lookup_app_r by lia. f_equal. lia.
Qed.

Lemma lookup_new0 σ τ : (σ ++ τ) !! length σ = τ !! 0%nat.
Proof. rewrite <- (lookup_new σ τ 0). f_equal. lia. Qed.

Lemma lookup_new_Some σ τ (k : nat) c :
  τ !! k = Some c → (σ ++ τ) !! (length σ + k)%nat = Some c.
Proof. now rewrite lookup_new. Qed.

Lemma lookup_new0_Some σ τ c :
  τ !! 0%nat = Some c → (σ ++ τ) !! length σ = Some c.
Proof. now rewrite lookup_new0. Qed.

Lemma insert_new0 σ τ c : <[length σ := c]> (σ ++ τ) = σ ++ <[0%nat := c]> τ.
Proof.
  replace (length σ) with (length σ + 0)%nat at 1 by lia.
  apply (insert_app_r σ τ 0 c).
Qed.

Lemma readArr_run σ l elems :
  σ !! l = Some (CArr elems) → readArr l σ = Ok (elems, σ).
Proof. unfold readArr. now intros ->. Qed.

Lemma readOut_run σ l o :
  σ !! l = Some (COut o) → readOut l σ = Ok (o, σ).
Proof. unfold readOut. now intros ->. Qed.

Lemma readCfg_run σ l b :
  σ !! l = Some (CCfg b) → readCfg (E:=E) l σ = Ok (b, σ).
Proof. unfold readCfg. now intros ->. Qed.
End StoreFacts.

(** ** splice and insertAt on the elements *)

Section SpliceFacts.
Context {E : Type}.
Implicit Types (elems items : list E) (σ : Store E).

Lemma spliceStart_range len start :
  0 ≤ len → 0 ≤ spliceStart len start ≤ len.
Proof. unfold spliceStart. destruct (start <? 0) eqn:H; lia. Qed.

(** With nothing to delete, [splice] cuts the array at the start position
    and puts the items in between. *)
Lemma spliced_insert elems start items :
  spliced elems start 0 items =
    let k := Z.to_nat (spliceStart (Z.of_nat (length elems)) start) in
    take k elems ++ items ++ drop k elems.
Proof.
  unfold spliced. cbv zeta.
  pose proof (spliceStart_range (Z.of_nat (length elems)) start) as Hr.
  assert (Hd : spliceDeleteCount (Z.of_nat (length elems))
                 (spliceStart (Z.of_nat (length elems)) start) 0 = 0)
    by (unfold spliceDeleteCount; lia).
  rewrite Hd, Z.add_0_r. reflexivity.
Qed.

Lemma length_cut (k : nat) elems items :
  length (take k elems ++ items ++ drop k elems)
  = (length elems + length items)%nat.
Proof.
  rewrite !length_app, length_take, length_drop. lia.
Qed.

(** What a call of [insertAt] does to the store: one new array, nothing
    else touched. *)
Lemma insertAt_run σ arr index insertees elems :
  σ !! arr = Some (CArr elems) →
  insertAt arr index insertees σ =
    Ok (length σ,
        σ ++ [CArr (spliced elems
                      (if index >=? 0 then index
                       else Z.of_nat (length elems) + 1 + index)
                      0 insertees)]).
Proof.
  intros Harr. unfold insertAt, bind.
  rewrite (readArr_run _ _ _ Harr). unfold alloc.
  unfold splice, bind, readArr, writeCell.
  rewrite lookup_new0. simpl. rewrite lookup_new0. simpl.
  rewrite insert_new0. reflexivity.
Qed.

Lemma cut_lookup_at (k : nat) elems x :
  (k ≤ length elems)%nat → (take k elems ++ x :: drop k elems) !! k = Some x.
Proof.
  intros Hk. apply list_lookup_middle. rewrite length_take. lia.
Qed.

Lemma cut_lookup_before (k j : nat) elems x :
  (k ≤ length elems)%nat → (j < k)%nat →
  (take k elems ++ x :: drop k elems) !! j = elems !! j.
Proof.
  intros Hk Hj. rewrite lookup_app_l by (rewrite length_take; lia).
  now apply lookup_take_lt.
Qed.

Lemma cut_lookup_after (k j : nat) elems x :
  (k ≤ length elems)%nat → (k ≤ j)%nat →
  (take k elems ++ x :: drop k elems) !! S j = elems !! j.
Proof.
  intros Hk Hj. rewrite lookup_app_r by (rewrite length_take; lia).
  rewrite length_take. replace (S j - k `min` length elems)%nat
    with (S (j - k)) by lia.
  simpl. rewrite lookup_drop. f_equal. lia.
Qed.

(** A negative index in range is turned into a position of the array. *)
Lemma spliceStart_inrange len p : 0 ≤ p ≤ len → spliceStart len p = p.
Proof. unfold spliceStart. intros Hp. destruct (p <? 0) eqn:Hneg; lia. Qed.
End SpliceFacts.

(** ** insertAt *)

Section InsertAt.
Context {E : Type}.
Implicit Types (σ : Store E) (s : list E) (x : E).

(** C5, as the code has it.  For a non-negative index [i], [insertAt]
    returns a new array one element longer than [s]; [x] sits at position
    [min i (length s)], which is position [i] whenever [i] is at most the
    length and the end of the array for a larger [i]; the elements of [s]
    before that position stay in place and the others move up by one, in
    their order; the array passed in, like every object that existed
    before the call, is unchanged. *)
Theorem insertAt_nonneg σ arr s i x :
  σ !! arr = Some (CArr s) →
  0 ≤ i →
  ∃ (k : nat) (r : list E),
    k = Z.to_nat (Z.min i (Z.of_nat (length s)))
    ∧ r = take k s ++ x :: drop k s
    ∧ insertAt arr i [x] σ = Ok (length σ, σ ++ [CArr r])
    ∧ length r = S (length s)
    ∧ r !! k = Some x
    ∧ (i ≤ Z.of_nat (length s) → r !! Z.to_nat i = Some x)
    ∧ (∀ j : nat, (j < k)%nat → r !! j = s !! j)
    ∧ (∀ j : nat, (k ≤ j)%nat → r !! S j = s !! j)
    ∧ arrayAt (σ ++ [CArr r]) arr = Some s
    ∧ (∀ l c, σ !! l = Some c → (σ ++ [CArr r]) !! l = Some c).
Proof.
  intros Harr Hi.
  set (k := Z.to_nat (Z.min i (Z.of_nat (length s)))).
  assert (Hk : (k ≤ length s)%nat) by (subst k; lia).
  exists k, (take k s ++ x :: drop k s).
  split; [reflexivity|]. split; [reflexivity|].
  split.
  { rewrite (insertAt_run _ _ _ _ _ Harr).
    replace (i >=? 0) with true by (symmetry; apply Z.geb_le; lia).
    rewrite spliced_insert. cbv zeta.
    replace (spliceStart (Z.of_nat (length s)) i)
      with (Z.min i (Z.of_nat (length s)))
      by (unfold spliceStart; destruct (i <? 0) eqn:Hneg; lia).
    reflexivity. }
  split.
  { change (x :: drop k s) with ([x] ++ drop k s).
    rewrite length_cut. simpl. lia. }
  split; [now apply cut_lookup_at|].
  split.
  { intros Hle. replace (Z.to_nat i) with k by (subst k; lia).
    now apply cut_lookup_at. }
  split; [intros j Hj; now apply cut_lookup_before|].
  split; [intros j Hj; now apply cut_lookup_after|].
  split.
  { unfold arrayAt. now rewrite (lookup_old _ _ _ _ Harr). }
  intros l c Hl. now apply lookup_old.
Qed.

(** C6.  For a negative index [i] with [|i| <= length s + 1], the element
    at position [length s + 1 + i] of the array [insertAt] returns is
    [x]. *)
Theorem insertAt_negative σ arr s i x :
  σ !! arr = Some (CArr s) →
  i < 0 →
  Z.abs i ≤ Z.of_nat (length s) + 1 →
  ∃ r : list E,
    insertAt arr i [x] σ = Ok (length σ, σ ++ [CArr r])
    ∧ length r = S (length s)
    ∧ r !! Z.to_nat (Z.of_nat (length s) + 1 + i) = Some x.
Proof.
  intros Harr Hneg Habs.
  set (p := Z.of_nat (length s) + 1 + i).
  assert (Hp : 0 ≤ p ≤ Z.of_nat (length s)) by (subst p; lia).
  exists (take (Z.to_nat p) s ++ x :: drop (Z.to_nat p) s).
  split.
  { rewrite (insertAt_run _ _ _ _ _ Harr).
    replace (i >=? 0) with false
      by (symmetry; rewrite Z.geb_leb; apply Z.leb_gt; lia).
    rewrite spliced_insert. cbv zeta. fold p.
    now rewrite spliceStart_inrange. }
  split.
  { change (x :: drop (Z.to_nat p) s) with ([x] ++ drop (Z.to_nat p) s).
    rewrite length_cut. simpl. lia. }
  apply cut_lookup_at. lia.
Qed.

(** C7, as the code has it.  Index -1 puts [x] after the last element of
    [s], for every [s]; index -2 puts [x] immediately before the last
    element of [s], for every non-empty [s]: the index counts from the end
    of the array that is returned. *)
Theorem insertAt_from_end σ arr s x :
  σ !! arr = Some (CArr s) →
  insertAt arr (-1) [x] σ = Ok (length σ, σ ++ [CArr (s ++ [x])])
  ∧ (∀ front z, s = front ++ [z] →
       insertAt arr (-2) [x] σ
       = Ok (length σ, σ ++ [CArr (front ++ [x; z])])).
Proof.
  intros Harr. split.
  - rewrite (insertAt_run _ _ _ _ _ Harr).
    change (-1 >=? 0) with false. cbv iota.
    rewrite spliced_insert. cbv zeta.
    rewrite spliceStart_inrange by lia.
    replace (Z.to_nat (Z.of_nat (length s) + 1 + -1)) with (length s) by lia.
    now rewrite take_ge, drop_ge by lia.
  - intros front z ->.
    rewrite (insertAt_run _ _ _ _ _ Harr).
    change (-2 >=? 0) with false. cbv iota.
    rewrite spliced_insert. cbv zeta.
    rewrite length_app. simpl length.
    rewrite spliceStart_inrange by lia.
    replace (Z.to_nat (Z.of_nat (length front + 1) + 1 + -2))
      with (length front) by lia.
    rewrite take_app_length, drop_app_length. reflexivity.
Qed.
End InsertAt.

(** ** makeBundleConfigVariants on the store *)

Section VariantRuns.
Implicit Types (σ τ : Store Plugin) (ps : list Plugin).

Lemma variantSpecificConfig_run τ fileName pl insertees ps :
  τ !! pl = Some (CArr ps) →
  variantSpecificConfig fileName pl insertees τ
  = Ok ((length τ + 2)%nat,
        τ ++ variantCells (length τ) fileName ps insertees).
Proof.
  intros Hpl. unfold variantSpecificConfig, bind, alloc.
  rewrite (insertAt_run _ pl (-2) insertees ps)
    by (now apply lookup_old).
  change (-2 >=? 0) with false. cbv iota.
  rewrite !length_app. simpl length.
  rewrite <- !app_assoc. simpl app.
  unfold variantCells, splicedIn, fileOnly.
  replace (length τ + 1 + 1)%nat with (length τ + 2)%nat by lia.
  reflexivity.
Qed.

Lemma deepMerge_variant_run τ base b ol pl o v vo vp fileName :
  τ !! base = Some (CCfg b) →
  output b = Some ol →
  plugins b = Some pl →
  τ !! ol = Some (COut o) →
  τ !! v = Some (CCfg {| input := None; output := Some vo;
                         plugins := Some vp; treeshake := None;
                         context := None |}) →
  τ !! vo = Some (COut (fileOnly fileName)) →
  deepMerge base v (fun first second => ret second) τ
  = Ok ((length τ + 1)%nat, τ ++ mergedCells (length τ) b o fileName vp).
Proof.
  intros Hbase Hout Hpl Hol Hv Hvo. unfold deepMerge, bind.
  rewrite (readCfg_run _ _ _ Hbase), (readCfg_run _ _ _ Hv).
  rewrite Hout, Hpl. cbn [output plugins input treeshake context].
  unfold deepMergeOutput, deepMergeArray, bind.
  rewrite (readOut_run _ _ _ Hol), (readOut_run _ _ _ Hvo).
  unfold alloc, ret. rewrite !length_app. simpl length.
  rewrite <- !app_assoc. simpl app.
  unfold mergedCells. cbn [mergeField]. reflexivity.
Qed.

Lemma getLastElement_run {E} (σ : Store E) arr (elems : list E) :
  σ !! arr = Some (CArr elems) →
  getLastElement arr σ = Ok (last elems, σ).
Proof.
  intros Harr. unfold getLastElement, bind.
  rewrite (readArr_run _ _ _ Harr). unfold ret. do 2 f_equal.
  rewrite last_lookup. destruct elems as [|e elems]; [reflexivity|].
  replace (Z.of_nat (length (e :: elems)) - 1 <? 0) with false
    by (symmetry; apply Z.ltb_ge; simpl length; lia).
  f_equal. simpl length. lia.
Qed.

(** A valid base: the three variants are built and merged; the call
    returns the three merged configs and adds fifteen objects. *)
Lemma makeBundleConfigVariants_run σ baseConfig b ps o :
  BundleBase σ baseConfig b ps o →
  licenseLast ps →
  makeBundleConfigVariants baseConfig σ
  = Ok ([length σ + 10; length σ + 12; length σ + 14]%nat,
        σ ++ bundleVariantCells (length σ) b o ps).
Proof.
  intros (Hbase & (pl & Hpl & Hps) & (ol & Hol & Ho)) (lic & Hlast & Hname).
  unfold makeBundleConfigVariants, bind.
  rewrite (readCfg_run _ _ _ Hbase), Hpl, Hol. unfold defined at 1, ret at 1.
  rewrite (getLastElement_run _ _ _ Hps), Hlast. unfold defined at 1, ret at 1.
  rewrite Hname. unfold assert, defined, ret at 1 2.
  change (licensePluginName =? "rollup-plugin-license")%string with true.
  cbv beta iota.
  rewrite (readOut_run _ _ _ Ho).
  set (f := template (file o)).
  (* the three entries of variantSpecificConfigs *)
  set (n := length σ).
  rewrite (variantSpecificConfig_run σ _ pl _ ps Hps). fold n.
  remember (σ ++ variantCells n _ ps _) as τ1 eqn:E1.
  assert (H1 : length τ1 = (n + 3)%nat)
    by (rewrite E1, length_app; reflexivity).
  assert (Hps1 : τ1 !! pl = Some (CArr ps))
    by (rewrite E1; now apply lookup_old).
  rewrite (variantSpecificConfig_run τ1 _ pl _ ps Hps1), H1.
  remember (τ1 ++ variantCells (n + 3) _ ps _) as τ2 eqn:E2.
  assert (H2 : length τ2 = (n + 6)%nat)
    by (rewrite E2, length_app, H1; simpl; lia).
  assert (Hps2 : τ2 !! pl = Some (CArr ps))
    by (rewrite E2; now apply lookup_old).
  rewrite (variantSpecificConfig_run τ2 _ pl _ ps Hps2), H2.
  remember (τ2 ++ variantCells (n + 6) _ ps _) as τ3 eqn:E3.
  assert (H3 : length τ3 = (n + 9)%nat)
    by (rewrite E3, length_app, H2; simpl; lia).
  assert (Hold3 : ∀ l c, σ !! l = Some c → τ3 !! l = Some c)
    by (intros l c Hl; rewrite E3, E2, E1; now do 3 apply lookup_old).
  (* the three merges *)
  cbn [mapJs]. unfold bind.
  rewrite (deepMerge_variant_run τ3 baseConfig b ol pl o
             (n + 2) n (n + 1) (f +:+ ".js"));
    [ | now apply Hold3 | assumption | assumption | now apply Hold3
      | rewrite E3, E2, E1; do 2 apply lookup_old; now apply (lookup_new_Some σ _ 2)
      | rewrite E3, E2, E1; do 2 apply lookup_old; now apply (lookup_new0_Some σ) ].
  rewrite H3.
  remember (τ3 ++ mergedCells (n + 9) b o _ _) as τ4 eqn:E4.
  assert (H4 : length τ4 = (n + 11)%nat)
    by (rewrite E4, length_app, H3; simpl; lia).
  rewrite (deepMerge_variant_run τ4 baseConfig b ol pl o
             (n + 3 + 2) (n + 3) (n + 3 + 1) (f +:+ ".min.js"));
    [ | rewrite E4; apply lookup_old; now apply Hold3 | assumption
      | assumption | rewrite E4; apply lookup_old; now apply Hold3
      | rewrite E4, E3, E2, <- H1; do 2 apply lookup_old;
        now apply (lookup_new_Some τ1 _ 2)
      | rewrite E4, E3, E2, <- H1; do 2 apply lookup_old;
        now apply (lookup_new0_Some τ1) ].
  rewrite H4.
  remember (τ4 ++ mergedCells (n + 11) b o _ _) as τ5 eqn:E5.
  assert (H5 : length τ5 = (n + 13)%nat)
    by (rewrite E5, length_app, H4; simpl; lia).
  rewrite (deepMerge_variant_run τ5 baseConfig b ol pl o
             (n + 6 + 2) (n + 6) (n + 6 + 1) (f +:+ ".debug.min.js"));
    [ | rewrite E5, E4; do 2 apply lookup_old; now apply Hold3 | assumption
      | assumption | rewrite E5, E4; do 2 apply lookup_old; now apply Hold3
      | rewrite E5, E4, E3, <- H2; do 2 apply lookup_old;
        now apply (lookup_new_Some τ2 _ 2)
      | rewrite E5, E4, E3, <- H2; do 2 apply lookup_old;
        now apply (lookup_new0_Some τ2) ].
  rewrite H5. unfold ret.
  (* the addresses, counted from the length of σ *)
  rewrite E5, E4, E3, E2, E1. unfold bundleVariantCells. fold f.
  rewrite <- !app_assoc.
  replace (n + 9 + 1)%nat with (n + 10)%nat by lia.
  replace (n + 11 + 1)%nat with (n + 12)%nat by lia.
  replace (n + 13 + 1)%nat with (n + 14)%nat by lia.
  replace (n + 3 + 1)%nat with (n + 4)%nat by lia.
  replace (n + 6 + 1)%nat with (n + 7)%nat by lia.
  reflexivity.
Qed.



(** [insertAt(plugins, -2, ...)] on a pipeline with a last element: the
    insertees go right before it. *)
Lemma splicedIn_last front lic insertees :
  splicedIn (front ++ [lic]) insertees = front ++ insertees ++ [lic].
Proof.
  unfold splicedIn. rewrite spliced_insert. cbv zeta.
  rewrite length_app. simpl length.
  rewrite spliceStart_inrange by lia.
  replace (Z.to_nat (Z.of_nat (length front + 1) + 1 + -2))
    with (length front) by lia.
  now rewrite take_app_length, drop_app_length.
Qed.

(** Reading the three returned configs back from the final store. *)
Section Readback.
Variables (σ : Store Plugin) (b : BuildConfig) (o : OutputSpec)
          (ps : list Plugin).
Let n := length σ.
Let σ' := σ ++ bundleVariantCells n b o ps.
Let f := template (file o).

Lemma variant_cell (k : nat) c :
  bundleVariantCells n b o ps !! k = Some c → σ' !! (n + k)%nat = Some c.
Proof. apply lookup_new_Some. Qed.

Lemma plain_config :
  configAt σ' (n + 10)
  = Some {| input := input b; output := Some (n + 9)%nat;
            plugins := Some (n + 1)%nat; treeshake := treeshake b;
            context := context b |}.
Proof. unfold configAt. now rewrite (variant_cell 10 _ eq_refl). Qed.

Lemma min_config :
  configAt σ' (n + 12)
  = Some {| input := input b; output := Some (n + 11)%nat;
            plugins := Some (n + 4)%nat; treeshake := treeshake b;
            context := context b |}.
Proof. unfold configAt. now rewrite (variant_cell 12 _ eq_refl). Qed.

Lemma debugMin_config :
  configAt σ' (n + 14)
  = Some {| input := input b; output := Some (n + 13)%nat;
            plugins := Some (n + 7)%nat; treeshake := treeshake b;
            context := context b |}.
Proof. unfold configAt. now rewrite (variant_cell 14 _ eq_refl). Qed.

Lemma plain_plugins :
  pluginsOf σ' (n + 10) = Some (splicedIn ps [makeIsDebugBuildPlugin true]).
Proof.
  unfold pluginsOf. rewrite plain_config. cbn [plugins].
  unfold arrayAt. now rewrite (variant_cell 1 _ eq_refl).
Qed.

Lemma min_plugins :
  pluginsOf σ' (n + 12)
  = Some (splicedIn ps [makeIsDebugBuildPlugin false; terserPlugin]).
Proof.
  unfold pluginsOf. rewrite min_config. cbn [plugins].
  unfold arrayAt. now rewrite (variant_cell 4 _ eq_refl).
Qed.

Lemma debugMin_plugins :
  pluginsOf σ' (n + 14)
  = Some (splicedIn ps [makeIsDebugBuildPlugin true; terserPlugin]).
Proof.
  unfold pluginsOf. rewrite debugMin_config. cbn [plugins].
  unfold arrayAt. now rewrite (variant_cell 7 _ eq_refl).
Qed.

Lemma plain_file : fileOf σ' (n + 10) = Some (f +:+ ".js").
Proof.
  unfold fileOf. rewrite plain_config. cbn [output].
  unfold outputAt. now rewrite (variant_cell 9 _ eq_refl).
Qed.

Lemma min_file : fileOf σ' (n + 12) = Some (f +:+ ".min.js").
Proof.
  unfold fileOf. rewrite min_config. cbn [output].
  unfold outputAt. now rewrite (variant_cell 11 _ eq_refl).
Qed.

Lemma debugMin_file : fileOf σ' (n + 14) = Some (f +:+ ".debug.min.js").
Proof.
  unfold fileOf. rewrite debugMin_config. cbn [output].
  unfold outputAt. now rewrite (variant_cell 13 _ eq_refl).
Qed.
End Readback.
End VariantRuns.

(** ** makeBundleConfigVariants *)

Section Variants.
Implicit Types (σ : Store Plugin) (ps : list Plugin).

Lemma sampleStore_base ps :
  BundleBase (sampleStore ps) 0 sampleBase ps sampleOutput.
Proof.
  split; [reflexivity|]. split.
  - exists 2%nat. split; reflexivity.
  - exists 1%nat. split; reflexivity.
Defined.

Lemma append_inj_l (f a b : string) : f +:+ a = f +:+ b → a = b.
Proof.
  induction f as [|c f IH]; simpl; [trivial|].
  intros H. injection H as H. now apply IH.
Qed.

(** C1.  From a base whose plugins are [r; m; lic], with [lic] the license
    plugin, the call returns three configs: the plain one has plugins
    [r; m; debug(true); lic], the minified one with debugging
    [r; m; debug(true); terser; lic] and the minified one without
    [r; m; debug(false); terser; lic].  Each list is the whole plugin list
    of its variant: the base's list is replaced, not prepended. *)
Theorem variants_of_three_plugins σ baseConfig b o r m lic :
  BundleBase σ baseConfig b [r; m; lic] o →
  name lic = licensePluginName →
  ∃ plain min debugMin σ',
    makeBundleConfigVariants baseConfig σ = Ok ([plain; min; debugMin], σ')
    ∧ pluginsOf σ' plain = Some [r; m; makeIsDebugBuildPlugin true; lic]
    ∧ pluginsOf σ' debugMin
      = Some [r; m; makeIsDebugBuildPlugin true; terserPlugin; lic]
    ∧ pluginsOf σ' min
      = Some [r; m; makeIsDebugBuildPlugin false; terserPlugin; lic].
Proof.
  intros Hbase Hname.
  assert (Hlic : licenseLast [r; m; lic]) by (exists lic; now split).
  eexists _, _, _, _. split.
  { apply (makeBundleConfigVariants_run _ _ _ _ _ Hbase Hlic). }
  rewrite plain_plugins, debugMin_plugins, min_plugins.
  change [r; m; lic] with ([r; m] ++ [lic]).
  rewrite !splicedIn_last. repeat split; reflexivity.
Qed.

(** C2, as the code has it.  From a valid base the call returns exactly
    three configs, in this order: the non-minified one with debugging,
    file [f.js]; the minified one with debugging stripped, file
    [f.min.js]; the minified one with debugging, file [f.debug.min.js].
    The three file names differ. *)
Theorem variants_in_order σ baseConfig b ps o :
  BundleBase σ baseConfig b ps o →
  licenseLast ps →
  ∃ front lic v1 v2 v3 σ',
    ps = front ++ [lic]
    ∧ makeBundleConfigVariants baseConfig σ = Ok ([v1; v2; v3], σ')
    ∧ fileOf σ' v1 = Some (template (file o) +:+ ".js")
    ∧ fileOf σ' v2 = Some (template (file o) +:+ ".min.js")
    ∧ fileOf σ' v3 = Some (template (file o) +:+ ".debug.min.js")
    ∧ fileOf σ' v1 ≠ fileOf σ' v2
    ∧ fileOf σ' v1 ≠ fileOf σ' v3
    ∧ fileOf σ' v2 ≠ fileOf σ' v3
    ∧ pluginsOf σ' v1 = Some (front ++ [makeIsDebugBuildPlugin true; lic])
    ∧ pluginsOf σ' v2
      = Some (front ++ [makeIsDebugBuildPlugin false; terserPlugin; lic])
    ∧ pluginsOf σ' v3
      = Some (front ++ [makeIsDebugBuildPlugin true; terserPlugin; lic]).
Proof.
  intros Hbase Hlic.
  destruct Hlic as (lic & Hlast & Hname).
  destruct (proj1 (last_Some ps lic) Hlast) as (front & ->).
  assert (Hlic : licenseLast (front ++ [lic])) by (exists lic; now split).
  exists front, lic. eexists _, _, _, _.
  split; [reflexivity|]. split.
  { apply (makeBundleConfigVariants_run _ _ _ _ _ Hbase Hlic). }
  rewrite plain_file, min_file, debugMin_file.
  rewrite plain_plugins, min_plugins, debugMin_plugins.
  rewrite !splicedIn_last.
  repeat split; try reflexivity;
    intros H; injection H as H; apply append_inj_l in H; discriminate.
Qed.


(** C9.  From a valid base, each of the three returned configs has the
    [input] of the base.  Its config object, its plugin array and its
    output object are new objects of the store (so none is an object of
    the base), no object belongs to two variants, the objects that
    existed before the call are unchanged, and overwriting an object of
    one variant leaves every object of another variant as it was. *)
Theorem variants_independent σ baseConfig b ps o :
  BundleBase σ baseConfig b ps o →
  licenseLast ps →
  ∃ v1 v2 v3 σ',
    makeBundleConfigVariants baseConfig σ = Ok ([v1; v2; v3], σ')
    ∧ (∀ v, v ∈ [v1; v2; v3] →
         ∃ c p out, configAt σ' v = Some c
                    ∧ input c = input b
                    ∧ plugins c = Some p ∧ plugins c ≠ plugins b
                    ∧ output c = Some out ∧ output c ≠ output b
                    ∧ is_Some (arrayAt σ' p)
                    ∧ is_Some (outputAt σ' out)
                    ∧ ownedBy σ' v = [v; p; out])
    ∧ NoDup (ownedBy σ' v1 ++ ownedBy σ' v2 ++ ownedBy σ' v3)
    ∧ (∀ l, l ∈ ownedBy σ' v1 ++ ownedBy σ' v2 ++ ownedBy σ' v3 →
         σ !! l = None)
    ∧ (∀ l c, σ !! l = Some c → σ' !! l = Some c)
    ∧ (∀ v w, v ∈ [v1; v2; v3] → w ∈ [v1; v2; v3] → v ≠ w →
         ∀ l l' c, l ∈ ownedBy σ' v → l' ∈ ownedBy σ' w →
                   <[l := c]> σ' !! l' = σ' !! l').
Proof.
  intros Hbase Hlic.
  pose proof (makeBundleConfigVariants_run _ _ _ _ _ Hbase Hlic) as Hrun.
  destruct Hbase as (Hb & (pl & Hpl & Hps) & (ol & Hol & Ho)).
  apply lookup_lt_Some in Hps, Ho.
  pose proof (plain_config σ b o ps) as C1.
  pose proof (min_config σ b o ps) as C2.
  pose proof (debugMin_config σ b o ps) as C3.
  pose proof (λ k c, variant_cell σ b o ps k c) as Hcell.
  set (n := length σ) in *.
  set (σ' := σ ++ bundleVariantCells n b o ps) in *.
  assert (O1 : ownedBy σ' (n + 10) = [n + 10; n + 1; n + 9]%nat)
    by (unfold ownedBy; now rewrite C1).
  assert (O2 : ownedBy σ' (n + 12) = [n + 12; n + 4; n + 11]%nat)
    by (unfold ownedBy; now rewrite C2).
  assert (O3 : ownedBy σ' (n + 14) = [n + 14; n + 7; n + 13]%nat)
    by (unfold ownedBy; now rewrite C3).
  exists (n + 10)%nat, (n + 12)%nat, (n + 14)%nat, σ'.
  split; [exact Hrun|]. split.
  { intros v Hv. rewrite !elem_of_cons, elem_of_nil in Hv.
    destruct Hv as [-> | [-> | [-> | []]]].
    - eexists _, _, _. split; [exact C1|].
      cbn [input plugins output]. rewrite Hpl, Hol.
      repeat split; try reflexivity; try (intros [= ?]; lia);
        try exact O1.
      + unfold arrayAt. erewrite (Hcell 1%nat) by reflexivity.
        eexists; reflexivity.
      + unfold outputAt. erewrite (Hcell 9%nat) by reflexivity.
        eexists; reflexivity.
    - eexists _, _, _. split; [exact C2|].
      cbn [input plugins output]. rewrite Hpl, Hol.
      repeat split; try reflexivity; try (intros [= ?]; lia);
        try exact O2.
      + unfold arrayAt. erewrite (Hcell 4%nat) by reflexivity.
        eexists; reflexivity.
      + unfold outputAt. erewrite (Hcell 11%nat) by reflexivity.
        eexists; reflexivity.
    - eexists _, _, _. split; [exact C3|].
      cbn [input plugins output]. rewrite Hpl, Hol.
      repeat split; try reflexivity; try (intros [= ?]; lia);
        try exact O3.
      + unfold arrayAt. erewrite (Hcell 7%nat) by reflexivity.
        eexists; reflexivity.
      + unfold outputAt. erewrite (Hcell 13%nat) by reflexivity.
        eexists; reflexivity. }
  rewrite O1, O2, O3. cbn [app].
  split.
  { rewrite !NoDup_cons, !not_elem_of_cons, !elem_of_nil.
    repeat split; try lia; try tauto. apply NoDup_nil_2. }
  split.
  { intros l Hl. rewrite !elem_of_cons, elem_of_nil in Hl.
    apply lookup_ge_None. fold n. lia. }
  split.
  { intros l c Hl. now apply lookup_old. }
  intros v w Hv Hw Hvw l l' c Hl Hl'.
  apply list_lookup_insert_ne.
  rewrite !elem_of_cons, elem_of_nil in Hv, Hw.
  destruct Hv as [-> | [-> | [-> | []]]];
    destruct Hw as [-> | [-> | [-> | []]]];
    try (exfalso; apply Hvw; reflexivity);
    rewrite ?O1, ?O2, ?O3 in Hl; rewrite ?O1, ?O2, ?O3 in Hl';
    rewrite !elem_of_cons, elem_of_nil in Hl, Hl'; lia.
Qed.
End Variants.

(** ** makeBaseBundleConfig *)

Section BaseBundle.
Implicit Types (σ : Store Plugin).

Lemma readCfg_new σ (τ : Store Plugin) (k : nat) c :
  τ !! k = Some (CCfg c) →
  readCfg (length σ + k)%nat (σ ++ τ) = Ok (c, σ ++ τ).
Proof. intros H. apply readCfg_run. now apply lookup_new_Some. Qed.

Lemma readOut_new σ (τ : Store Plugin) (k : nat) o :
  τ !! k = Some (COut o) →
  readOut (length σ + k)%nat (σ ++ τ) = Ok (o, σ ++ τ).
Proof. intros H. apply readOut_run. now apply lookup_new_Some. Qed.

Lemma readArr_new σ (τ : Store Plugin) (k : nat) elems :
  τ !! k = Some (CArr elems) →
  readArr (length σ + k)%nat (σ ++ τ) = Ok (elems, σ ++ τ).
Proof. intros H. apply readArr_run. now apply lookup_new_Some. Qed.

Lemma readOut_new0 σ (τ : Store Plugin) o :
  τ !! 0%nat = Some (COut o) →
  readOut (length σ) (σ ++ τ) = Ok (o, σ ++ τ).
Proof. intros H. apply readOut_run. now apply lookup_new0_Some. Qed.

Ltac norm_store :=
  rewrite ?length_app; cbn [length]; rewrite <- ?app_assoc; cbn [app];
  rewrite <- ?Nat.add_assoc; cbn [Nat.add].

Lemma makeBaseBundleConfig_run env options σ hash :
  commitHash env = Some hash →
  ∃ τ b o,
    makeBaseBundleConfig env options σ = Ok ((length σ + 10)%nat, σ ++ τ)
    ∧ BundleBase (σ ++ τ) (length σ + 10) b
        [ typescript (if String.eqb
                           (toLowerCase (BundleOptions.jsVersion options))
                           "es5"
                      then "es5" else "es6");
          markAsBrowserBuildPlugin;
          nodeResolvePlugin;
          license
            ("/*! <%= data.title %> <%= pkg.version %> (" +:+ hash
               +:+ ") | https://github.com/getsentry/sentry-javascript */")
            (BundleOptions.licenseTitle options) ]
        o
    ∧ input b = Some (BundleOptions.input options)
    ∧ file o = Some ("build/" +:+ BundleOptions.outputFileBase options).
Proof.
  intros Hhash. unfold makeBaseBundleConfig, makeLicensePlugin.
  rewrite Hhash. unfold bind at 1. unfold ret at 1.
  unfold bind, alloc.
  norm_store.
  unfold deepMerge, bind.
  erewrite (readCfg_new σ _ 6) by reflexivity.
  destruct (BundleOptions.isAddOn options).
  - erewrite (readCfg_new σ _ 3) by reflexivity.
    cbn [output plugins input treeshake context mergeField].
    unfold deepMergeOutput, bind.
    erewrite (readOut_new σ _ 4) by reflexivity.
    erewrite (readOut_new σ _ 2) by reflexivity.
    unfold alloc, ret. norm_store.
    unfold deepMergeArray, defaultArrayMerge, bind, alloc, ret. norm_store.
    erewrite (readArr_new σ _ 8) by reflexivity.
    erewrite (readArr_new σ _ 5) by reflexivity.
    norm_store.
    eexists _, _, _. split; [reflexivity|].
    split.
    { split; [now apply (lookup_new_Some σ _ 10)|].
      split; eexists; (split; [reflexivity|]).
      - apply (lookup_new_Some σ _ 9). cbn [lookup list_lookup].
        unfold markAsBrowserBuildPlugin.
        now destruct (String.eqb _ "es5").
      - now apply (lookup_new_Some σ _ 7). }
    split; reflexivity.
  - erewrite (readCfg_new σ _ 1) by reflexivity.
    cbn [output plugins input treeshake context mergeField].
    unfold deepMergeOutput, bind.
    erewrite (readOut_new σ _ 4) by reflexivity.
    erewrite (readOut_new0 σ) by reflexivity.
    unfold alloc, ret. norm_store.
    unfold deepMergeArray, defaultArrayMerge, bind, alloc, ret. norm_store.
    erewrite (readArr_new σ _ 8) by reflexivity.
    erewrite (readArr_new σ _ 5) by reflexivity.
    norm_store.
    eexists _, _, _. split; [reflexivity|].
    split.
    { split; [now apply (lookup_new_Some σ _ 10)|].
      split; eexists; (split; [reflexivity|]).
      - apply (lookup_new_Some σ _ 9). cbn [lookup list_lookup].
        unfold markAsBrowserBuildPlugin.
        now destruct (String.eqb _ "es5").
      - now apply (lookup_new_Some σ _ 7). }
    split; reflexivity.
Qed.

Lemma pluginsOf_base σ l b ps o :
  BundleBase σ l b ps o → pluginsOf σ l = Some ps.
Proof.
  intros (Hb & (pl & Hpl & Hps) & _).
  unfold pluginsOf, configAt, arrayAt. now rewrite Hb, Hpl, Hps.
Qed.

(** C3, as the code has it.  When the revision hash can be read, the
    config [makeBaseBundleConfig] returns has exactly four plugins, in
    this order: the TypeScript plugin for the target (es5 when
    [jsVersion] is es5 in any capitalisation, es6 otherwise), the plugin
    that marks the build as a browser bundle, the module-resolution
    plugin, and the license plugin last. *)
Theorem base_bundle_pipeline env options σ hash :
  commitHash env = Some hash →
  ∃ l σ',
    makeBaseBundleConfig env options σ = Ok (l, σ')
    ∧ pluginsOf σ' l
      = Some [ typescript
                 (if String.eqb
                       (toLowerCase (BundleOptions.jsVersion options)) "es5"
                  then "es5" else "es6");
               markAsBrowserBuildPlugin;
               nodeResolvePlugin;
               license
                 ("/*! <%= data.title %> <%= pkg.version %> (" +:+ hash
                    +:+ ") | https://github.com/getsentry/sentry-javascript */")
                 (BundleOptions.licenseTitle options) ].
Proof.
  intros Hhash.
  destruct (makeBaseBundleConfig_run env options σ hash Hhash)
    as (τ & b & o & Hrun & Hbase & _).
  exists (length σ + 10)%nat, (σ ++ τ). split; [exact Hrun|].
  now apply (pluginsOf_base _ _ b _ o).
Qed.

(** Without the revision hash there is no config. *)
Lemma makeBaseBundleConfig_no_hash env options σ :
  commitHash env = None →
  makeBaseBundleConfig env options σ = Throw ExecError.
Proof.
  intros Hhash. unfold makeBaseBundleConfig, makeLicensePlugin, bind.
  now rewrite Hhash.
Qed.

(** What [makeBaseBundleConfig] returns is a valid base for
    [makeBundleConfigVariants]. *)
Lemma makeBaseBundleConfig_valid env options σ hash :
  commitHash env = Some hash →
  ∃ l σ' b ps o,
    makeBaseBundleConfig env options σ = Ok (l, σ')
    ∧ BundleBase σ' l b ps o ∧ licenseLast ps.
Proof.
  intros Hhash.
  destruct (makeBaseBundleConfig_run env options σ hash Hhash)
    as (τ & b & o & Hrun & Hbase & _).
  eexists _, _, b, _, o. split; [exact Hrun|]. split; [exact Hbase|].
  eexists. split; reflexivity.
Qed.
End BaseBundle.

(** ** makeBaseNPMConfig *)

Section Package.
(** C8.  The [external] list holds exactly the built-in module names and
    the keys of the three dependency objects of the manifest; for the
    manifest with dependency a, dev dependency b and no peer dependency,
    and the built-ins fs and path, it is fs, path, a, b. *)
Theorem npm_external env options :
  (list_to_set (NPM.external (makeBaseNPMConfig env options))
     =@{gset string}
     list_to_set (builtinModules env)
     ∪ list_to_set (keysOrEmpty (dependencies (packageDotJSON env)))
     ∪ list_to_set (keysOrEmpty (devDependencies (packageDotJSON env)))
     ∪ list_to_set (keysOrEmpty (peerDependencies (packageDotJSON env))))
  ∧ NPM.external (makeBaseNPMConfig sampleEnv options)
    = ["fs"; "path"; "a"; "b"]
  ∧ list_to_set (NPM.external (makeBaseNPMConfig sampleEnv options))
    =@{gset string} {[ "fs"; "path"; "a"; "b" ]}.
Proof.
  split; [|split].
  - unfold makeBaseNPMConfig. cbn [NPM.external].
    rewrite !list_to_set_app_L, !(assoc_L (∪)). reflexivity.
  - reflexivity.
  - unfold makeBaseNPMConfig. cbn. set_solver.
Qed.

(** C10.  The call without an argument returns a config, with input
    src/index.ts and interop esModule; options without an entrypoint give
    input src/index.ts; interop is auto when [esModuleInterop] is truthy
    and esModule when it is not. *)
Theorem npm_defaults env e (options : NPM.Options) :
  NPM.input (makeBaseNPMConfig env None) = JString "src/index.ts"
  ∧ NPM.interop (NPM.output (makeBaseNPMConfig env None)) = "esModule"
  ∧ NPM.input (makeBaseNPMConfig env (Some (NPM.mkOptions JUndefined e)))
    = JString "src/index.ts"
  ∧ NPM.interop (NPM.output (makeBaseNPMConfig env (Some options)))
    = (if truthy (NPM.esModuleInterop options) then "auto" else "esModule").
Proof. repeat split. Qed.
End Package.

(** * Worked instances *)

Section Instances.
(** A pipeline of three plugins with the license plugin last. *)
Let pipeline : list Plugin :=
  [nodeResolvePlugin; markAsBrowserBuildPlugin; sampleLicense].

Lemma pipeline_licenseLast : licenseLast pipeline.
Proof. exists sampleLicense. split; reflexivity. Defined.

(** An array of three numbers at location 0. *)
Let numbers : Store nat := [CArr [1; 2; 3]%nat].

Lemma variants_of_three_plugins_witness :
  ∃ plain min debugMin σ',
    makeBundleConfigVariants 0 (sampleStore pipeline)
    = Ok ([plain; min; debugMin], σ')
    ∧ pluginsOf σ' plain
      = Some [nodeResolvePlugin; markAsBrowserBuildPlugin;
              makeIsDebugBuildPlugin true; sampleLicense]
    ∧ pluginsOf σ' debugMin
      = Some [nodeResolvePlugin; markAsBrowserBuildPlugin;
              makeIsDebugBuildPlugin true; terserPlugin; sampleLicense]
    ∧ pluginsOf σ' min
      = Some [nodeResolvePlugin; markAsBrowserBuildPlugin;
              makeIsDebugBuildPlugin false; terserPlugin; sampleLicense].
Proof.
  exact (variants_of_three_plugins (sampleStore pipeline) 0 sampleBase
           sampleOutput nodeResolvePlugin markAsBrowserBuildPlugin
           sampleLicense (sampleStore_base pipeline) eq_refl).
Defined.

Lemma variants_in_order_witness :
  ∃ v1 v2 v3 σ',
    makeBundleConfigVariants 0 (sampleStore pipeline)
    = Ok ([v1; v2; v3], σ')
    ∧ fileOf σ' v1 = Some "build/bundle.js"
    ∧ fileOf σ' v2 = Some "build/bundle.min.js"
    ∧ fileOf σ' v3 = Some "build/bundle.debug.min.js".
Proof.
  destruct (variants_in_order (sampleStore pipeline) 0 sampleBase pipeline
              sampleOutput (sampleStore_base pipeline) pipeline_licenseLast)
    as (front & lic & v1 & v2 & v3 & σ' & _ & Hrun & F1 & F2 & F3 & _).
  exists v1, v2, v3, σ'. repeat split; assumption.
Defined.

(** The second config is the one with debugging stripped, the third the
    one that keeps it. *)
Lemma variants_order_counterexample :
  ∃ v1 v2 v3 σ' ps2 ps3,
    makeBundleConfigVariants 0 (sampleStore pipeline)
    = Ok ([v1; v2; v3], σ')
    ∧ fileOf σ' v2 = Some "build/bundle.min.js"
    ∧ pluginsOf σ' v2 = Some ps2
    ∧ makeIsDebugBuildPlugin false ∈ ps2
    ∧ (makeIsDebugBuildPlugin true ∉ ps2)
    ∧ fileOf σ' v3 = Some "build/bundle.debug.min.js"
    ∧ pluginsOf σ' v3 = Some ps3
    ∧ makeIsDebugBuildPlugin true ∈ ps3
    ∧ (makeIsDebugBuildPlugin false ∉ ps3).
Proof.
  eexists _, _, _, _, _, _.
  split; [vm_compute; reflexivity|].
  split; [reflexivity|]. split; [vm_compute; reflexivity|].
  split; [do 2 right; left|].
  split.
  { rewrite !not_elem_of_cons. repeat split; try discriminate.
    apply not_elem_of_nil. }
  split; [reflexivity|]. split; [vm_compute; reflexivity|].
  split; [do 2 right; left|].
  rewrite !not_elem_of_cons. repeat split; try discriminate.
  apply not_elem_of_nil.
Qed.



Lemma variants_independent_witness :
  ∃ v1 v2 v3 σ',
    makeBundleConfigVariants 0 (sampleStore pipeline)
    = Ok ([v1; v2; v3], σ')
    ∧ NoDup (ownedBy σ' v1 ++ ownedBy σ' v2 ++ ownedBy σ' v3)
    ∧ σ' !! 2%nat = Some (CArr pipeline).
Proof.
  destruct (variants_independent (sampleStore pipeline) 0 sampleBase
              pipeline sampleOutput (sampleStore_base pipeline)
              pipeline_licenseLast)
    as (v1 & v2 & v3 & σ' & Hrun & _ & Hnodup & _ & Hold & _).
  exists v1, v2, v3, σ'. split; [exact Hrun|]. split; [exact Hnodup|].
  apply Hold. reflexivity.
Defined.

Lemma base_bundle_pipeline_witness :
  ∃ l σ',
    makeBaseBundleConfig sampleEnv sampleOptions [] = Ok (l, σ')
    ∧ pluginsOf σ' l
      = Some [ typescript "es5"; markAsBrowserBuildPlugin;
               nodeResolvePlugin;
               license
                 "/*! <%= data.title %> <%= pkg.version %> (abc1234) | https://github.com/getsentry/sentry-javascript */"
                 "Sentry" ].
Proof.
  exact (base_bundle_pipeline sampleEnv sampleOptions [] "abc1234" eq_refl).
Defined.

(** The marker plugin comes second and the resolve plugin third. *)
Lemma base_bundle_order_counterexample :
  ∃ ps,
    returnedPlugins (makeBaseBundleConfig sampleEnv sampleOptions [])
    = Some ps
    ∧ ps !! 1%nat = Some markAsBrowserBuildPlugin
    ∧ ps !! 2%nat = Some nodeResolvePlugin
    ∧ ps ≠ [ typescript "es5"; nodeResolvePlugin; markAsBrowserBuildPlugin;
             license
               "/*! <%= data.title %> <%= pkg.version %> (abc1234) | https://github.com/getsentry/sentry-javascript */"
               "Sentry" ].
Proof.
  eexists. split; [vm_compute; reflexivity|].
  split; [reflexivity|]. split; [reflexivity|]. discriminate.
Qed.

Lemma insertAt_nonneg_witness :
  ∃ r : list nat,
    insertAt 0 1 [9%nat] numbers = Ok (1%nat, numbers ++ [CArr r])
    ∧ r !! 1%nat = Some 9%nat
    ∧ length r = 4%nat.
Proof.
  destruct (insertAt_nonneg numbers 0 [1; 2; 3]%nat 1 9%nat eq_refl)
    as (k & r & _ & _ & Hrun & Hlen & _ & Hat & _); [lia|].
  exists r. split; [exact Hrun|]. split; [|exact Hlen].
  apply Hat. simpl. lia.
Defined.

(** An index past the end: the item is appended, so position 1 of the
    array returned for the empty array and index 1 holds nothing. *)
Lemma insertAt_past_end_counterexample :
  ∃ r : list nat,
    returnedArray (insertAt 0 1 [9%nat] [CArr []]) = Some r
    ∧ r = [9%nat]
    ∧ r !! 1%nat ≠ Some 9%nat.
Proof.
  exists [9%nat]. split; [reflexivity|]. split; [reflexivity|]. discriminate.
Qed.

Lemma insertAt_negative_witness :
  ∃ r : list nat,
    insertAt 0 (-2) [9%nat] numbers = Ok (1%nat, numbers ++ [CArr r])
    ∧ length r = 4%nat
    ∧ r !! 2%nat = Some 9%nat.
Proof.
  apply (insertAt_negative numbers 0 [1; 2; 3]%nat (-2) 9%nat eq_refl);
    simpl; lia.
Defined.

Lemma insertAt_from_end_witness :
  insertAt 0 (-1) [9%nat] numbers
  = Ok (1%nat, numbers ++ [CArr [1; 2; 3; 9]%nat])
  ∧ insertAt 0 (-2) [9%nat] numbers
    = Ok (1%nat, numbers ++ [CArr [1; 2; 9; 3]%nat]).
Proof.
  destruct (insertAt_from_end numbers 0 [1; 2; 3]%nat 9%nat eq_refl)
    as [Hlast Hbefore].
  split; [exact Hlast|]. exact (Hbefore [1; 2]%nat 3%nat eq_refl).
Defined.

(** Index -1 on [1; 2; 3] puts the item after 3, not before it; index -2
    puts it before 3, not before 2. *)
Lemma insertAt_from_end_counterexample :
  returnedArray (insertAt 0 (-1) [9%nat] numbers) = Some [1; 2; 3; 9]%nat
  ∧ returnedArray (insertAt 0 (-1) [9%nat] numbers)
    ≠ Some [1; 2; 9; 3]%nat
  ∧ returnedArray (insertAt 0 (-2) [9%nat] numbers) = Some [1; 2; 9; 3]%nat
  ∧ returnedArray (insertAt 0 (-2) [9%nat] numbers)
    ≠ Some [1; 9; 2; 3]%nat.
Proof.
  repeat split; try reflexivity; discriminate.
Qed.
End Instances.


(** * Further properties of the array helpers *)

Section ArrayHelpers.
Context {E : Type}.
Implicit Types (σ : Store E) (s xs : list E) (x : E).

(** X1.  Whatever the index, also one far out of range, [insertAt] returns
    a new array obtained by cutting [s] at some position and putting the
    insertees in between: no element of [s] is lost, duplicated or moved
    past another, and the length grows by the number of insertees. *)
Theorem insertAt_any_index σ arr s i xs :
  σ !! arr = Some (CArr s) →
  ∃ (k : nat) (r : list E),
    (k ≤ length s)%nat
    ∧ r = take k s ++ xs ++ drop k s
    ∧ insertAt arr i xs σ = Ok (length σ, σ ++ [CArr r])
    ∧ length r = (length s + length xs)%nat
    ∧ arrayAt (σ ++ [CArr r]) arr = Some s.
Proof.
  intros Harr.
  set (d := if i >=? 0 then i else Z.of_nat (length s) + 1 + i).
  pose proof (spliceStart_range (Z.of_nat (length s)) d) as Hrange.
  exists (Z.to_nat (spliceStart (Z.of_nat (length s)) d)). eexists.
  split; [lia|]. split; [reflexivity|]. split.
  { rewrite (insertAt_run _ _ _ _ _ Harr). fold d.
    now rewrite spliced_insert. }
  split; [apply length_cut|].
  unfold arrayAt. now rewrite (lookup_old _ _ _ _ Harr).
Qed.

(** X2.  An index below [-(length s + 1)] does not clamp to the front: the
    destination index is itself negative and [splice] counts it from the
    end once more, so the insertees land at position
    [max (2 * length s + 1 + i) 0]. *)
Theorem insertAt_below_range σ arr s i xs :
  σ !! arr = Some (CArr s) →
  i < - (Z.of_nat (length s) + 1) →
  insertAt arr i xs σ
  = Ok (length σ,
        σ ++ [CArr (take (Z.to_nat (Z.max (2 * Z.of_nat (length s) + 1 + i) 0)) s
                      ++ xs
                      ++ drop (Z.to_nat (Z.max (2 * Z.of_nat (length s) + 1 + i) 0)) s)]).
Proof.
  intros Harr Hi. rewrite (insertAt_run _ _ _ _ _ Harr).
  replace (i >=? 0) with false
    by (symmetry; rewrite Z.geb_leb; apply Z.leb_gt; lia).
  rewrite spliced_insert. cbv zeta.
  replace (spliceStart (Z.of_nat (length s)) (Z.of_nat (length s) + 1 + i))
    with (Z.max (2 * Z.of_nat (length s) + 1 + i) 0); [reflexivity|].
  unfold spliceStart.
  destruct (Z.of_nat (length s) + 1 + i <? 0) eqn:Hneg; lia.
Qed.

(** X3.  With an index in range, several insertees go in as a block, in
    their order: at position [i] for [0 <= i <= length s], at position
    [length s + 1 + i] for [-(length s + 1) <= i < 0]. *)
Theorem insertAt_block σ arr s i xs :
  σ !! arr = Some (CArr s) →
  - (Z.of_nat (length s) + 1) ≤ i ≤ Z.of_nat (length s) →
  ∃ (k : nat) (r : list E),
    k = Z.to_nat (if 0 <=? i then i else Z.of_nat (length s) + 1 + i)
    ∧ r = take k s ++ xs ++ drop k s
    ∧ insertAt arr i xs σ = Ok (length σ, σ ++ [CArr r])
    ∧ (∀ (j : nat) x, xs !! j = Some x → r !! (k + j)%nat = Some x)
    ∧ (∀ j : nat, (j < k)%nat → r !! j = s !! j)
    ∧ (∀ j : nat, (k ≤ j)%nat → r !! (j + length xs)%nat = s !! j).
Proof.
  intros Harr Hi.
  set (p := if 0 <=? i then i else Z.of_nat (length s) + 1 + i).
  assert (Hp : 0 ≤ p ≤ Z.of_nat (length s))
    by (subst p; destruct (0 <=? i) eqn:H0; lia).
  assert (Hk : (Z.to_nat p ≤ length s)%nat) by lia.
  exists (Z.to_nat p). eexists.
  split; [reflexivity|]. split; [reflexivity|]. split.
  { rewrite (insertAt_run _ _ _ _ _ Harr). rewrite Z.geb_leb. fold p.
    rewrite spliced_insert. cbv zeta. now rewrite spliceStart_inrange. }
  assert (Hlen : length (take (Z.to_nat p) s) = Z.to_nat p)
    by (rewrite length_take; lia).
  split; [|split].
  - intros j x Hj. rewrite lookup_app_r by lia.
    replace (Z.to_nat p + j - length (take (Z.to_nat p) s))%nat with j by lia.
    now apply lookup_app_l_Some.
  - intros j Hj. rewrite lookup_app_l by lia. now apply lookup_take_lt.
  - intros j Hj. rewrite lookup_app_r by lia.
    rewrite lookup_app_r by lia. rewrite lookup_drop. f_equal. lia.
Qed.

(** X4.  Without insertees [insertAt] is a copy: a new array with the
    elements of [s], whatever the index. *)
Theorem insertAt_nothing σ arr s i :
  σ !! arr = Some (CArr s) →
  insertAt arr i [] σ = Ok (length σ, σ ++ [CArr s]).
Proof.
  intros Harr. rewrite (insertAt_run _ _ _ _ _ Harr).
  rewrite spliced_insert. cbv zeta. cbn [app].
  now rewrite take_drop.
Qed.

(** X5.  [getLastElement] reads without writing: it returns the last
    element of the array, which is [undefined] exactly for the empty
    array, and leaves the store as it was. *)
Theorem getLastElement_last σ arr s :
  σ !! arr = Some (CArr s) →
  getLastElement arr σ = Ok (last s, σ)
  ∧ (last s = None ↔ s = [])
  ∧ (∀ front z, s = front ++ [z] → getLastElement arr σ = Ok (Some z, σ)).
Proof.
  intros Harr. rewrite (getLastElement_run _ _ _ Harr).
  split; [reflexivity|]. split; [apply last_None|].
  intros front z ->. now rewrite last_snoc.
Qed.

(** X6.  The two helpers together: after [insertAt(s, -1, x)] the last
    element is [x]; after [insertAt(s, -2, ...xs)] on a non-empty [s] the
    last element is still the last element of [s], whatever is inserted. *)
Theorem last_after_insertAt σ arr s x :
  σ !! arr = Some (CArr s) →
  bind (insertAt arr (-1) [x]) getLastElement σ
  = Ok (Some x, σ ++ [CArr (s ++ [x])])
  ∧ (∀ front z xs, s = front ++ [z] →
       bind (insertAt arr (-2) xs) getLastElement σ
       = Ok (Some z, σ ++ [CArr (front ++ xs ++ [z])])).
Proof.
  intros Harr. split.
  - unfold bind. rewrite (insertAt_run _ _ _ _ _ Harr).
    change (-1 >=? 0) with false. cbv iota.
    rewrite spliced_insert. cbv zeta.
    rewrite spliceStart_inrange by lia.
    replace (Z.to_nat (Z.of_nat (length s) + 1 + -1)) with (length s) by lia.
    rewrite take_ge, drop_ge by lia.
    rewrite (getLastElement_run _ (length σ) (s ++ [x] ++ []))
      by (now apply lookup_new0_Some).
    cbn [app]. now rewrite last_snoc.
  - intros front z xs ->. unfold bind.
    rewrite (insertAt_run _ _ _ _ _ Harr).
    change (-2 >=? 0) with false. cbv iota.
    rewrite spliced_insert. cbv zeta.
    rewrite length_app. simpl length.
    rewrite spliceStart_inrange by lia.
    replace (Z.to_nat (Z.of_nat (length front + 1) + 1 + -2))
      with (length front) by lia.
    rewrite take_app_length, drop_app_length.
    rewrite (getLastElement_run _ (length σ) (front ++ xs ++ [z]))
      by (now apply lookup_new0_Some).
    now rewrite !app_assoc, last_snoc.
Qed.
End ArrayHelpers.

(** * Further properties of makeBundleConfigVariants *)

Section VariantEdges.
Implicit Types (σ : Store Plugin) (ps : list Plugin).

(** X7.  A base config without a [plugins] property: reading the length of
    [undefined] throws a [TypeError]; no variant is built. *)
Theorem variants_without_plugins σ baseConfig b :
  σ !! baseConfig = Some (CCfg b) →
  plugins b = None →
  makeBundleConfigVariants baseConfig σ = Throw TypeError.
Proof.
  intros Hbase Hpl. unfold makeBundleConfigVariants, bind.
  now rewrite (readCfg_run _ _ _ Hbase), Hpl.
Qed.

(** X8.  A base config whose pipeline passes the license check but which
    has no [output] property: reading [file] of [undefined] throws a
    [TypeError] after the check; no variant is built. *)
Theorem variants_without_output σ baseConfig b pl ps :
  σ !! baseConfig = Some (CCfg b) →
  plugins b = Some pl →
  σ !! pl = Some (CArr ps) →
  licenseLast ps →
  output b = None →
  makeBundleConfigVariants baseConfig σ = Throw TypeError.
Proof.
  intros Hbase Hpl Hps (lic & Hlast & Hname) Hout.
  unfold makeBundleConfigVariants, bind.
  rewrite (readCfg_run _ _ _ Hbase), Hpl. unfold defined at 1, ret at 1.
  rewrite (getLastElement_run _ _ _ Hps), Hlast.
  unfold defined at 1, ret at 1. rewrite Hname, Hout. reflexivity.
Qed.

(** X9.  The license check is kept by the call: each of the three configs
    it returns is again a config with a plugin array and an output object,
    its pipeline still ends with the license plugin and holds every plugin
    of the base, so a returned config passes the check itself. *)
Theorem variants_are_valid_bases σ baseConfig b ps o :
  BundleBase σ baseConfig b ps o →
  licenseLast ps →
  ∃ v1 v2 v3 σ',
    makeBundleConfigVariants baseConfig σ = Ok ([v1; v2; v3], σ')
    ∧ (∀ v, v ∈ [v1; v2; v3] →
         ∃ c ps' o',
           BundleBase σ' v c ps' o'
           ∧ licenseLast ps'
           ∧ last ps' = last ps
           ∧ (∀ p, p ∈ ps → p ∈ ps')
           ∧ (∃ r, makeBundleConfigVariants v σ' = Ok r)).
Proof.
  intros Hbase Hlic.
  pose proof (makeBundleConfigVariants_run _ _ _ _ _ Hbase Hlic) as Hrun.
  destruct Hlic as (lic & Hlast & Hname).
  destruct (proj1 (last_Some ps lic) Hlast) as (front & ->).
  pose proof (plain_config σ b o (front ++ [lic])) as C1.
  pose proof (min_config σ b o (front ++ [lic])) as C2.
  pose proof (debugMin_config σ b o (front ++ [lic])) as C3.
  pose proof (λ k c, variant_cell σ b o (front ++ [lic]) k c) as Hcell.
  set (n := length σ) in *.
  set (σ' := σ ++ bundleVariantCells n b o (front ++ [lic])) in *.
  assert (Hvalid : ∀ v c (pl ol : nat) items o',
            configAt σ' v = Some c →
            plugins c = Some pl → output c = Some ol →
            σ' !! pl = Some (CArr (splicedIn (front ++ [lic]) items)) →
            σ' !! ol = Some (COut o') →
            ∃ c ps' o',
              BundleBase σ' v c ps' o'
              ∧ licenseLast ps'
              ∧ last ps' = last (front ++ [lic])
              ∧ (∀ p, p ∈ front ++ [lic] → p ∈ ps')
              ∧ (∃ r, makeBundleConfigVariants v σ' = Ok r)).
  { intros v c pl ol items o' Hc Hpl Hol Harr Ho.
    rewrite splicedIn_last in Harr.
    assert (Hb' : BundleBase σ' v c (front ++ items ++ [lic]) o').
    { split.
      - unfold configAt in Hc. destruct (σ' !! v) as [[| |c']|]; congruence.
      - split; eexists; (split; [eassumption|assumption]). }
    assert (Hl' : licenseLast (front ++ items ++ [lic])).
    { exists lic. split; [|assumption]. now rewrite !app_assoc, last_snoc. }
    exists c, (front ++ items ++ [lic]), o'.
    split; [exact Hb'|]. split; [exact Hl'|].
    split; [now rewrite !app_assoc, !last_snoc|].
    split.
    - intros p Hp. rewrite !elem_of_app in *. tauto.
    - eexists. apply (makeBundleConfigVariants_run _ _ _ _ _ Hb' Hl'). }
  exists (n + 10)%nat, (n + 12)%nat, (n + 14)%nat, σ'.
  split; [exact Hrun|].
  intros v Hv. rewrite !elem_of_cons, elem_of_nil in Hv.
  destruct Hv as [-> | [-> | [-> | []]]].
  - eapply (Hvalid _ _ (n + 1)%nat (n + 9)%nat); [exact C1|reflexivity..| |].
    + now apply (Hcell 1%nat).
    + now apply (Hcell 9%nat).
  - eapply (Hvalid _ _ (n + 4)%nat (n + 11)%nat); [exact C2|reflexivity..| |].
    + now apply (Hcell 4%nat).
    + now apply (Hcell 11%nat).
  - eapply (Hvalid _ _ (n + 7)%nat (n + 13)%nat); [exact C3|reflexivity..| |].
    + now apply (Hcell 7%nat).
    + now apply (Hcell 13%nat).
Qed.

(** X10.  A variant differs from the base in its file name and plugins
    only: its config keeps the base's [treeshake] and [context], and its
    output object has every property of the base's output object except
    [file]. *)
Theorem variants_keep_base_settings σ baseConfig b ps o :
  BundleBase σ baseConfig b ps o →
  licenseLast ps →
  ∃ v1 v2 v3 σ',
    makeBundleConfigVariants baseConfig σ = Ok ([v1; v2; v3], σ')
    ∧ (∀ v, v ∈ [v1; v2; v3] →
         ∃ c ol o',
           configAt σ' v = Some c
           ∧ treeshake c = treeshake b
           ∧ context c = context b
           ∧ output c = Some ol
           ∧ outputAt σ' ol = Some o'
           ∧ is_Some (file o')
           ∧ format o' = format o
           ∧ out_name o' = out_name o
           ∧ sourcemap o' = sourcemap o
           ∧ strict o' = strict o
           ∧ esModule o' = esModule o
           ∧ banner o' = banner o
           ∧ intro o' = intro o
           ∧ outro o' = outro o
           ∧ footer o' = footer o).
Proof.
  intros Hbase Hlic.
  pose proof (makeBundleConfigVariants_run _ _ _ _ _ Hbase Hlic) as Hrun.
  pose proof (plain_config σ b o ps) as C1.
  pose proof (min_config σ b o ps) as C2.
  pose proof (debugMin_config σ b o ps) as C3.
  pose proof (λ k c, variant_cell σ b o ps k c) as Hcell.
  set (n := length σ) in *.
  set (σ' := σ ++ bundleVariantCells n b o ps) in *.
  exists (n + 10)%nat, (n + 12)%nat, (n + 14)%nat, σ'.
  split; [exact Hrun|].
  intros v Hv. rewrite !elem_of_cons, elem_of_nil in Hv.
  destruct Hv as [-> | [-> | [-> | []]]].
  - eexists _, _, _. split; [exact C1|]. cbn [treeshake context output].
    do 3 (split; [reflexivity|]). split.
    { unfold outputAt. now erewrite (Hcell 9%nat) by reflexivity. }
    destruct o. cbn. repeat split; eauto.
  - eexists _, _, _. split; [exact C2|]. cbn [treeshake context output].
    do 3 (split; [reflexivity|]). split.
    { unfold outputAt. now erewrite (Hcell 11%nat) by reflexivity. }
    destruct o. cbn. repeat split; eauto.
  - eexists _, _, _. split; [exact C3|]. cbn [treeshake context output].
    do 3 (split; [reflexivity|]). split.
    { unfold outputAt. now erewrite (Hcell 13%nat) by reflexivity. }
    destruct o. cbn. repeat split; eauto.
Qed.

(** X11.  A base output object without a [file] property is not refused:
    the template literal prints [undefined], and the three files are named
    undefined.js, undefined.min.js and undefined.debug.min.js. *)
Theorem variants_without_file σ baseConfig b ps o :
  BundleBase σ baseConfig b ps o →
  licenseLast ps →
  file o = None →
  ∃ v1 v2 v3 σ',
    makeBundleConfigVariants baseConfig σ = Ok ([v1; v2; v3], σ')
    ∧ fileOf σ' v1 = Some "undefined.js"
    ∧ fileOf σ' v2 = Some "undefined.min.js"
    ∧ fileOf σ' v3 = Some "undefined.debug.min.js".
Proof.
  intros Hbase Hlic Hfile. eexists _, _, _, _. split.
  { apply (makeBundleConfigVariants_run _ _ _ _ _ Hbase Hlic). }
  rewrite plain_file, min_file, debugMin_file, Hfile. now repeat split.
Qed.
End VariantEdges.

(** * Further properties of makeBaseBundleConfig *)

Section BaseBundleShape.
Implicit Types (σ : Store Plugin).

Ltac norm_cells :=
  rewrite ?length_app; cbn [length]; rewrite <- ?app_assoc; cbn [app];
  rewrite <- ?Nat.add_assoc; cbn [Nat.add].

(** X12.  The shape of the base config.  When the revision hash can be
    read, the call returns a new config object and changes no object that
    existed.  The config has the given input, tree-shaking smallest, and an
    output object with file build/<outputFileBase>, source maps on, strict
    and esModule off.  A stand-alone bundle is an iife named Sentry run in
    the context window, without wrapper text; an add-on bundle is cjs
    without a name or context, wrapped by banner, intro, outro and
    footer. *)
Theorem base_bundle_shape env options σ hash :
  commitHash env = Some hash →
  ∃ l σ' c ol o,
    makeBaseBundleConfig env options σ = Ok (l, σ')
    ∧ σ !! l = None
    ∧ (∀ l' c', σ !! l' = Some c' → σ' !! l' = Some c')
    ∧ configAt σ' l = Some c
    ∧ input c = Some (BundleOptions.input options)
    ∧ treeshake c = Some "smallest"
    ∧ context c
      = (if BundleOptions.isAddOn options then None else Some "window")
    ∧ output c = Some ol
    ∧ outputAt σ' ol = Some o
    ∧ file o = Some ("build/" +:+ BundleOptions.outputFileBase options)
    ∧ sourcemap o = Some true
    ∧ strict o = Some false
    ∧ esModule o = Some false
    ∧ format o
      = Some (if BundleOptions.isAddOn options then "cjs" else "iife")
    ∧ out_name o
      = (if BundleOptions.isAddOn options then None else Some "Sentry")
    ∧ banner o
      = (if BundleOptions.isAddOn options
         then Some "(function (__window) {" else None)
    ∧ intro o
      = (if BundleOptions.isAddOn options
         then Some "var exports = {};" else None)
    ∧ footer o
      = (if BundleOptions.isAddOn options then Some "}(window));" else None)
    ∧ (if BundleOptions.isAddOn options
       then is_Some (outro o) else outro o = None).
Proof.
  intros Hhash. unfold makeBaseBundleConfig, makeLicensePlugin.
  rewrite Hhash. unfold bind at 1. unfold ret at 1.
  unfold bind, alloc. norm_cells.
  unfold deepMerge, bind.
  erewrite (readCfg_new σ _ 6) by reflexivity.
  destruct (BundleOptions.isAddOn options).
  - erewrite (readCfg_new σ _ 3) by reflexivity.
    cbn [output plugins input treeshake context mergeField].
    unfold deepMergeOutput, bind.
    erewrite (readOut_new σ _ 4) by reflexivity.
    erewrite (readOut_new σ _ 2) by reflexivity.
    unfold alloc, ret. norm_cells.
    unfold deepMergeArray, defaultArrayMerge, bind, alloc, ret. norm_cells.
    erewrite (readArr_new σ _ 8) by reflexivity.
    erewrite (readArr_new σ _ 5) by reflexivity.
    norm_cells.
    eexists _, _, _, _, _. split; [reflexivity|].
    split; [apply lookup_ge_None; lia|].
    split; [intros l' c' Hl'; now apply lookup_old|].
    split.
    { unfold configAt.
      now erewrite (lookup_new_Some σ _ 10) by reflexivity. }
    cbn [input treeshake context output].
    do 4 (split; [reflexivity|]). split.
    { unfold outputAt.
      now erewrite (lookup_new_Some σ _ 7) by reflexivity. }
    cbn. repeat split; eauto.
  - erewrite (readCfg_new σ _ 1) by reflexivity.
    cbn [output plugins input treeshake context mergeField].
    unfold deepMergeOutput, bind.
    erewrite (readOut_new σ _ 4) by reflexivity.
    erewrite (readOut_new0 σ) by reflexivity.
    unfold alloc, ret. norm_cells.
    unfold deepMergeArray, defaultArrayMerge, bind, alloc, ret. norm_cells.
    erewrite (readArr_new σ _ 8) by reflexivity.
    erewrite (readArr_new σ _ 5) by reflexivity.
    norm_cells.
    eexists _, _, _, _, _. split; [reflexivity|].
    split; [apply lookup_ge_None; lia|].
    split; [intros l' c' Hl'; now apply lookup_old|].
    split.
    { unfold configAt.
      now erewrite (lookup_new_Some σ _ 10) by reflexivity. }
    cbn [input treeshake context output].
    do 4 (split; [reflexivity|]). split.
    { unfold outputAt.
      now erewrite (lookup_new_Some σ _ 7) by reflexivity. }
    cbn. repeat split; eauto.
Qed.

(** X13.  A package's bundle build, [makeBundleConfigVariants] applied to
    what [makeBaseBundleConfig] returns: when the revision hash can be
    read it never fails the license check.  It yields three configs with
    the given input, named build/<outputFileBase> with .js, .min.js and
    .debug.min.js, whose pipelines are the four base plugins with the debug
    flag plugin, and terser for the minified ones, right before the
    license plugin. *)
Theorem bundle_build_end_to_end env options σ hash :
  commitHash env = Some hash →
  ∃ v1 v2 v3 σ' ts lic,
    bind (makeBaseBundleConfig env options) makeBundleConfigVariants σ
    = Ok ([v1; v2; v3], σ')
    ∧ ts = typescript
             (if String.eqb (toLowerCase (BundleOptions.jsVersion options))
                   "es5"
              then "es5" else "es6")
    ∧ name lic = licensePluginName
    ∧ fileOf σ' v1
      = Some (("build/" +:+ BundleOptions.outputFileBase options) +:+ ".js")
    ∧ fileOf σ' v2
      = Some (("build/" +:+ BundleOptions.outputFileBase options)
                +:+ ".min.js")
    ∧ fileOf σ' v3
      = Some (("build/" +:+ BundleOptions.outputFileBase options)
                +:+ ".debug.min.js")
    ∧ pluginsOf σ' v1
      = Some [ts; markAsBrowserBuildPlugin; nodeResolvePlugin;
              makeIsDebugBuildPlugin true; lic]
    ∧ pluginsOf σ' v2
      = Some [ts; markAsBrowserBuildPlugin; nodeResolvePlugin;
              makeIsDebugBuildPlugin false; terserPlugin; lic]
    ∧ pluginsOf σ' v3
      = Some [ts; markAsBrowserBuildPlugin; nodeResolvePlugin;
              makeIsDebugBuildPlugin true; terserPlugin; lic]
    ∧ (∀ v, v ∈ [v1; v2; v3] →
         ∃ c, configAt σ' v = Some c
              ∧ input c = Some (BundleOptions.input options)).
Proof.
  intros Hhash.
  destruct (makeBaseBundleConfig_run env options σ hash Hhash)
    as (τ & b & o & Hrun & Hbase & Hinput & Hfile).
  set (ts := typescript _) in *. set (lic := license _ _) in *.
  assert (Hlic : licenseLast
                   [ts; markAsBrowserBuildPlugin; nodeResolvePlugin; lic])
    by (exists lic; now split).
  pose proof (makeBundleConfigVariants_run _ _ _ _ _ Hbase Hlic) as Hvar.
  eexists _, _, _, _, ts, lic. split.
  { unfold bind. rewrite Hrun. exact Hvar. }
  split; [reflexivity|]. split; [reflexivity|].
  rewrite plain_file, min_file, debugMin_file, Hfile.
  rewrite plain_plugins, min_plugins, debugMin_plugins.
  change [ts; markAsBrowserBuildPlugin; nodeResolvePlugin; lic]
    with ([ts; markAsBrowserBuildPlugin; nodeResolvePlugin] ++ [lic]).
  rewrite !splicedIn_last.
  do 6 (split; [reflexivity|]).
  intros v Hv. rewrite !elem_of_cons, elem_of_nil in Hv.
  destruct Hv as [-> | [-> | [-> | []]]]; eexists.
  - split; [apply plain_config | exact Hinput].
  - split; [apply min_config | exact Hinput].
  - split; [apply debugMin_config | exact Hinput].
Qed.
End BaseBundleShape.


(** * Further properties of makeBaseNPMConfig *)

Section PackageEdges.
(** X14.  The entry point of a package config: a non-empty string is used
    as it is; the empty string and [null] count as missing, like
    [undefined], and give src/index.ts. *)
Theorem npm_entrypoint env e s :
  NPM.input (makeBaseNPMConfig env (Some (NPM.mkOptions (JString s) e)))
  = JString (if String.eqb s "" then "src/index.ts" else s)
  ∧ NPM.input (makeBaseNPMConfig env (Some (NPM.mkOptions JNull e)))
    = JString "src/index.ts".
Proof.
  split; [|reflexivity].
  unfold makeBaseNPMConfig. cbn [NPM.input NPM.entrypoint truthy].
  now destruct (String.eqb s "").
Qed.
End PackageEdges.

(** * Properties of the postbuild script *)

Section PostbuildReplace.
Import Postbuild.

Lemma stripPrefix_Some pattern s rest :
  stripPrefix pattern s = Some rest ↔ s = pattern +:+ rest.
Proof.
  revert s. induction pattern as [|a pattern IH]; intros s.
  - destruct s; simpl; (split; [intros [= <-]; reflexivity | intros ->; reflexivity]).
  - destruct s as [|b s]; simpl; [split; discriminate|].
    destruct (Ascii.eqb a b) eqn:Hab.
    + apply Ascii.eqb_eq in Hab as ->. rewrite IH.
      split; [now intros ->|]. now intros [= ->].
    + apply Ascii.eqb_neq in Hab. split; [discriminate|].
      intros [= -> _]. now destruct Hab.
Qed.

(** X15.  The string replacement the script uses replaces the first
    occurrence of the pattern and nothing else: the result is the text
    before the leftmost occurrence, the replacement, and the text after
    it; a string without an occurrence is returned as it is. *)
Theorem replaceFirst_spec pattern replacement s :
  (∃ pre post,
      s = pre +:+ pattern +:+ post
      ∧ (∀ pre' post', s = pre' +:+ pattern +:+ post' →
           (String.length pre ≤ String.length pre')%nat)
      ∧ replaceFirst pattern replacement s = pre +:+ replacement +:+ post)
  ∨ ((∀ pre post, s ≠ pre +:+ pattern +:+ post)
     ∧ replaceFirst pattern replacement s = s).
Proof.
  induction s as [|c s IH].
  - simpl. destruct (stripPrefix pattern "") as [rest|] eqn:Hstrip.
    + left. exists "", rest. apply stripPrefix_Some in Hstrip.
      split; [exact Hstrip|]. split; [simpl; lia | reflexivity].
    + right. split; [|reflexivity]. intros pre post Hs.
      destruct pre; simpl in Hs; [|discriminate].
      apply (stripPrefix_Some pattern "" post) in Hs. congruence.
  - simpl. destruct (stripPrefix pattern (String c s)) as [rest|] eqn:Hstrip.
    + left. exists "", rest. apply stripPrefix_Some in Hstrip.
      split; [exact Hstrip|]. split; [simpl; lia | reflexivity].
    + assert (Hnot : ∀ post, String c s ≠ pattern +:+ post).
      { intros post Hs.
        apply (stripPrefix_Some pattern (String c s) post) in Hs.
        congruence. }
      destruct IH as [(pre & post & Hs & Hmin & Hrep) | (Hnone & Hrep)].
      * left. exists (String c pre), post.
        split; [rewrite Hs at 1; reflexivity|].
        split; [|rewrite Hrep; reflexivity].
        intros pre' post' Hs'. destruct pre' as [|c' pre'].
        { now destruct (Hnot post'). }
        simpl in Hs'. injection Hs' as _ Hs'.
        simpl. apply le_n_S. now apply (Hmin pre' post').
      * right. split; [|now rewrite Hrep]. intros pre post Hs.
        destruct pre as [|c' pre]; [now destruct (Hnot post)|].
        simpl in Hs. injection Hs as _ Hs. now destruct (Hnone pre post).
Qed.

(** A value under the build directory loses that prefix, and only that:
    build/npm/<rest> becomes <rest>, even when <rest> mentions build/npm/
    again. *)
Lemma replaceFirst_build_dir rest :
  replaceFirst (NPM_BUILD_DIR +:+ "/") "" ((NPM_BUILD_DIR +:+ "/") +:+ rest)
  = rest.
Proof.
  destruct rest; reflexivity.
Qed.
End PostbuildReplace.

Section PostbuildManifest.
Import Postbuild.
Implicit Types (pkgJson : gmap string string).

Lemma truthyAt_present pkgJson key :
  truthyAt pkgJson key = true → is_Some (pkgJson !! key).
Proof. unfold truthyAt. destruct (pkgJson !! key); [eauto|discriminate]. Qed.

Lemma truthyAt_false pkgJson key :
  truthyAt pkgJson key = false →
  pkgJson !! key = None ∨ pkgJson !! key = Some "".
Proof.
  unfold truthyAt. destruct (pkgJson !! key) as [v|]; [|now left].
  destruct (String.eqb v "") eqn:Hv; [|discriminate].
  apply String.eqb_eq in Hv as ->. now right.
Qed.

(** The loop over entry points that are all there: it does not throw,
    rewrites each of them and touches no other key. *)
Lemma forEachEntryPoint_ok entryPoints pkgJson :
  (∀ e, e ∈ entryPoints → is_Some (pkgJson !! e)) →
  ∃ pkgJson',
    forEachEntryPoint entryPoints pkgJson = Ok pkgJson'
    ∧ (∀ k, k ∉ entryPoints → pkgJson' !! k = pkgJson !! k)
    ∧ (NoDup entryPoints →
       ∀ e, e ∈ entryPoints →
            pkgJson' !! e
            = replaceFirst (NPM_BUILD_DIR +:+ "/") "" <$> pkgJson !! e).
Proof.
  revert pkgJson. induction entryPoints as [|e rest IH]; intros pkgJson Hall.
  - exists pkgJson. split; [reflexivity|]. split; [reflexivity|].
    intros _ e He. now apply elem_of_nil in He.
  - destruct (Hall e) as [v Hv]; [now left|].
    cbn [forEachEntryPoint]. unfold rewriteEntryPoint. rewrite Hv.
    set (pkg1 := <[e := replaceFirst (NPM_BUILD_DIR +:+ "/") "" v]> pkgJson).
    destruct (IH pkg1) as (pkgJson' & Hrun & Hframe & Hrewritten).
    { intros e' He'. subst pkg1. rewrite lookup_insert_is_Some.
      destruct (decide (e = e')) as [->|Hne]; [now left|].
      right. split; [assumption|]. apply Hall. now right. }
    exists pkgJson'. split; [exact Hrun|]. split.
    + intros k Hk. rewrite not_elem_of_cons in Hk. destruct Hk as [Hke Hk].
      rewrite (Hframe k Hk). subst pkg1. now rewrite lookup_insert_ne.
    + intros Hnodup e' He'. apply NoDup_cons in Hnodup as [Hnotin Hnodup].
      destruct (decide (e' = e)) as [->|Hne].
      * rewrite (Hframe e Hnotin). subst pkg1.
        now rewrite lookup_insert_eq, Hv.
      * apply elem_of_cons in He' as [->|He']; [now destruct Hne|].
        rewrite (Hrewritten Hnodup e' He'). subst pkg1.
        now rewrite lookup_insert_ne.
Qed.

(** What the script makes of the entry points, before the deletions. *)
Lemma entry_points_rewritten pkgJson :
  ∃ pkgJson',
    forEachEntryPoint (List.filter (truthyAt pkgJson) ENTRY_POINTS) pkgJson
    = Ok pkgJson'
    ∧ (∀ k, k ∉ ENTRY_POINTS → pkgJson' !! k = pkgJson !! k)
    ∧ (∀ e, e ∈ ENTRY_POINTS →
            pkgJson' !! e
            = replaceFirst (NPM_BUILD_DIR +:+ "/") "" <$> pkgJson !! e).
Proof.
  set (present := List.filter (truthyAt pkgJson) ENTRY_POINTS).
  assert (Hin : ∀ e, e ∈ present ↔ e ∈ ENTRY_POINTS ∧ truthyAt pkgJson e = true).
  { intros e. subst present. rewrite !list_elem_of_In. apply filter_In. }
  assert (Hnodup : NoDup present).
  { subst present. apply NoDup_ListNoDup, List.NoDup_filter, NoDup_ListNoDup.
    unfold ENTRY_POINTS.
    rewrite !NoDup_cons, !not_elem_of_cons, !elem_of_nil.
    repeat split; try discriminate; try tauto. apply NoDup_nil_2. }
  destruct (forEachEntryPoint_ok present pkgJson)
    as (pkgJson' & Hrun & Hframe & Hrewritten).
  { intros e He. apply truthyAt_present. now apply Hin. }
  exists pkgJson'. split; [exact Hrun|]. split.
  - intros k Hk. apply Hframe. rewrite Hin. tauto.
  - intros e He. destruct (truthyAt pkgJson e) eqn:Htruthy.
    + apply (Hrewritten Hnodup). now apply Hin.
    + rewrite Hframe by (rewrite Hin; intros [_ Ht]; congruence).
      destruct (truthyAt_false _ _ Htruthy) as [-> | ->]; reflexivity.
Qed.

(** X16.  The edit of package.json never throws, whatever keys are there,
    and rewrites exactly the entry points main, module and types: each one
    that is there gets the first build/npm/ removed from its value, so
    build/npm/<rest> becomes <rest>; one that is missing stays missing. *)
Theorem modifyPackageJson_entry_points pkgJson :
  ∃ pkgJson',
    modifyPackageJson pkgJson = Ok pkgJson'
    ∧ (∀ e, e ∈ ENTRY_POINTS →
         pkgJson' !! e
         = replaceFirst (NPM_BUILD_DIR +:+ "/") "" <$> pkgJson !! e)
    ∧ (∀ e rest, e ∈ ENTRY_POINTS →
         pkgJson !! e = Some ((NPM_BUILD_DIR +:+ "/") +:+ rest) →
         pkgJson' !! e = Some rest)
    ∧ (∀ e, e ∈ ENTRY_POINTS → pkgJson !! e = None → pkgJson' !! e = None).
Proof.
  destruct (entry_points_rewritten pkgJson) as (p & Hrun & _ & Hrewritten).
  unfold modifyPackageJson. rewrite Hrun. eexists. split; [reflexivity|].
  assert (Hkept : ∀ e, e ∈ ENTRY_POINTS →
            delete "jest" (delete "volta" (delete "scripts" p)) !! e
            = replaceFirst (NPM_BUILD_DIR +:+ "/") "" <$> pkgJson !! e).
  { intros e He. rewrite <- (Hrewritten e He).
    unfold ENTRY_POINTS in He. rewrite !elem_of_cons, elem_of_nil in He.
    destruct He as [-> | [-> | [-> | []]]];
      now rewrite !lookup_delete_ne by discriminate. }
  split; [exact Hkept|]. split.
  - intros e rest He Hv. rewrite (Hkept e He), Hv.
    cbn [fmap option_fmap option_map]. now rewrite replaceFirst_build_dir.
  - intros e He Hv. now rewrite (Hkept e He), Hv.
Qed.

(** X17.  The edit removes scripts, volta and jest, and leaves every key
    other than these three and the three entry points as it was. *)
Theorem modifyPackageJson_frame pkgJson :
  ∃ pkgJson',
    modifyPackageJson pkgJson = Ok pkgJson'
    ∧ pkgJson' !! "scripts" = None
    ∧ pkgJson' !! "volta" = None
    ∧ pkgJson' !! "jest" = None
    ∧ (∀ k, k ∉ ENTRY_POINTS → k ∉ ["scripts"; "volta"; "jest"] →
            pkgJson' !! k = pkgJson !! k).
Proof.
  destruct (entry_points_rewritten pkgJson) as (p & Hrun & Hframe & _).
  unfold modifyPackageJson. rewrite Hrun. eexists. split; [reflexivity|].
  split; [|split; [|split]].
  - now rewrite !lookup_delete_ne, lookup_delete_eq by discriminate.
  - now rewrite lookup_delete_ne, lookup_delete_eq by discriminate.
  - now rewrite lookup_delete_eq.
  - intros k Hk Hk'. rewrite !not_elem_of_cons in Hk'.
    destruct Hk' as (H1 & H2 & H3 & _).
    rewrite !lookup_delete_ne by congruence. now apply Hframe.
Qed.
End PostbuildManifest.

Section PostbuildAssets.
Import Postbuild.
Implicit Types (w : World).

(** X18.  Without the build directory the script exits with code 1 before
    it copies anything: the files are as they were, and two lines went to
    the error output. *)
Theorem copyAssets_without_build_dir w :
  fs w !! NPM_BUILD_DIR = None →
  copyAssets w
  = Exit 1
      {| fs := fs w;
         stderr := stderr w
                     ++ [ "Directory build/npm DOES NOT exist";
                          "This script should only be executed after you've run `yarn build`." ] |}.
Proof.
  intros Hdir. unfold copyAssets, checkBuildDir, existsSync. rewrite Hdir.
  cbn [negb]. unfold consoleError. cbn [fs stderr].
  now rewrite <- app_assoc.
Qed.

Lemma forEachAsset_app pre rest w :
  forEachAsset (pre ++ rest) w
  = match forEachAsset pre w with
    | Continue w' => forEachAsset rest w'
    | stopped => stopped
    end.
Proof.
  revert w. induction pre as [|a pre IH]; intros w; [reflexivity|].
  cbn [app forEachAsset]. destruct (copyAsset a w); [apply IH|reflexivity..].
Qed.

(** X19.  The loop over the assets stops at the first one that is missing:
    the script exits with code 1 and names the asset, the assets before it
    have been copied already, and the ones after it are not looked at. *)
Theorem forEachAsset_stops_at_missing pre asset post w w' :
  forEachAsset pre w = Continue w' →
  fs w' !! asset = None →
  forEachAsset (pre ++ asset :: post) w
  = Exit 1
      {| fs := fs w';
         stderr := stderr w' ++ ["Asset " +:+ asset +:+ " does not exist."] |}.
Proof.
  intros Hpre Hmissing. rewrite forEachAsset_app, Hpre.
  cbn [forEachAsset]. unfold copyAsset, existsSync. now rewrite Hmissing.
Qed.

Lemma copyAsset_ok asset w content :
  fs w !! asset = Some (File content) →
  fs w !! dirname (resolve2 NPM_BUILD_DIR asset) = Some Dir →
  fs w !! resolve2 NPM_BUILD_DIR asset ≠ Some Dir →
  copyAsset asset w
  = Continue {| fs := <[resolve2 NPM_BUILD_DIR asset := File content]> (fs w);
                stderr := stderr w |}.
Proof.
  intros Hsrc Hdir Hdest. unfold copyAsset, existsSync, copyFileSync.
  rewrite Hsrc, Hdir. cbn [negb].
  destruct (fs w !! resolve2 NPM_BUILD_DIR asset) as [[c|]|];
    [reflexivity | now destruct Hdest | reflexivity].
Qed.

(** X20.  The script up to the end of the loop over the assets; the steps
    after it, the copy of the bundles and the rewrite of the copied
    package.json, are not covered.  With the build directory there, every
    asset a regular file and no directory in the way, the check passes and
    the loop copies the four assets into the build directory with their
    contents; when the loop has ended no other path has changed, the
    assets themselves are still there, and nothing was written to the
    error output. *)
Theorem copyAssets_ok w :
  fs w !! NPM_BUILD_DIR = Some Dir →
  (∀ a, a ∈ ASSETS → ∃ content, fs w !! a = Some (File content)) →
  (∀ a, a ∈ ASSETS → fs w !! resolve2 NPM_BUILD_DIR a ≠ Some Dir) →
  ∃ w',
    copyAssets w = Continue w'
    ∧ stderr w' = stderr w
    ∧ (∀ a, a ∈ ASSETS → fs w' !! resolve2 NPM_BUILD_DIR a = fs w !! a)
    ∧ (∀ p, (∀ a, a ∈ ASSETS → p ≠ resolve2 NPM_BUILD_DIR a) →
            fs w' !! p = fs w !! p).
Proof.
  intros Hdir Hfiles Hdests.
  destruct (Hfiles "README.md") as [c1 H1]; [set_solver|].
  destruct (Hfiles "LICENSE") as [c2 H2]; [set_solver|].
  destruct (Hfiles "package.json") as [c3 H3]; [set_solver|].
  destruct (Hfiles ".npmignore") as [c4 H4]; [set_solver|].
  pose proof (Hdests "README.md" ltac:(set_solver)) as D1.
  pose proof (Hdests "LICENSE" ltac:(set_solver)) as D2.
  pose proof (Hdests "package.json" ltac:(set_solver)) as D3.
  pose proof (Hdests ".npmignore" ltac:(set_solver)) as D4.
  unfold copyAssets, checkBuildDir, existsSync. rewrite Hdir. cbn [negb].
  unfold ASSETS. cbn [forEachAsset].
  rewrite (copyAsset_ok "README.md" _ c1 H1 Hdir D1).
  rewrite (copyAsset_ok "LICENSE" _ c2); cbn [fs stderr];
    [ | now rewrite lookup_insert_ne | now rewrite lookup_insert_ne
      | now rewrite lookup_insert_ne ].
  rewrite (copyAsset_ok "package.json" _ c3); cbn [fs stderr];
    [ | now rewrite !lookup_insert_ne by discriminate
      | now rewrite !lookup_insert_ne by discriminate
      | now rewrite !lookup_insert_ne by discriminate ].
  rewrite (copyAsset_ok ".npmignore" _ c4); cbn [fs stderr];
    [ | now rewrite !lookup_insert_ne by discriminate
      | now rewrite !lookup_insert_ne by discriminate
      | now rewrite !lookup_insert_ne by discriminate ].
  eexists. split; [reflexivity|]. cbn [fs stderr].
  split; [reflexivity|]. split.
  - intros a Ha. unfold ASSETS in Ha.
    rewrite !elem_of_cons, elem_of_nil in Ha.
    destruct Ha as [-> | [-> | [-> | [-> | []]]]].
    + now rewrite !lookup_insert_ne, lookup_insert_eq by discriminate.
    + now rewrite !lookup_insert_ne, lookup_insert_eq by discriminate.
    + now rewrite lookup_insert_ne, lookup_insert_eq by discriminate.
    + now rewrite lookup_insert_eq.
  - intros p Hp.
    pose proof (Hp "README.md" ltac:(set_solver)) as P1.
    pose proof (Hp "LICENSE" ltac:(set_solver)) as P2.
    pose proof (Hp "package.json" ltac:(set_solver)) as P3.
    pose proof (Hp ".npmignore" ltac:(set_solver)) as P4.
    now rewrite !lookup_insert_ne by congruence.
Qed.
End PostbuildAssets.


(** * How the helpers meet the license check *)

Section LicenseInvariant.
Implicit Types (σ : Store Plugin) (ps xs : list Plugin).

(** X21.  Without the revision hash nothing is built: the base config
    call throws the error of the failed command, and so does the whole
    bundle build made of it. *)
Theorem base_bundle_without_hash env options σ :
  commitHash env = None →
  makeBaseBundleConfig env options σ = Throw ExecError
  ∧ bind (makeBaseBundleConfig env options) makeBundleConfigVariants σ
    = Throw ExecError.
Proof.
  intros Hhash. unfold bind.
  rewrite (makeBaseBundleConfig_no_hash env options σ Hhash). now split.
Qed.

(** X22.  Extending a pipeline that ends with the license plugin: with
    index -2 the license plugin stays last whatever is inserted, so the
    check of [makeBundleConfigVariants] still passes; with index -1 the
    inserted plugin becomes the last one, and the check fails unless that
    plugin carries the license plugin's name. *)
Theorem insertAt_and_license_last σ arr ps :
  σ !! arr = Some (CArr ps) →
  licenseLast ps →
  (∀ xs, ∃ ps',
      insertAt arr (-2) xs σ = Ok (length σ, σ ++ [CArr ps'])
      ∧ licenseLast ps')
  ∧ (∀ x, name x ≠ licensePluginName →
       ∃ ps',
         insertAt arr (-1) [x] σ = Ok (length σ, σ ++ [CArr ps'])
         ∧ ¬ licenseLast ps').
Proof.
  intros Harr (lic & Hlast & Hname).
  destruct (proj1 (last_Some ps lic) Hlast) as (front & ->).
  split.
  - intros xs. exists (front ++ xs ++ [lic]). split.
    + rewrite (insertAt_run _ _ _ _ _ Harr).
      change (-2 >=? 0) with false. cbv iota.
      now rewrite <- (splicedIn_last front lic xs).
    + exists lic. split; [|assumption]. now rewrite !app_assoc, last_snoc.
  - intros x Hx. exists ((front ++ [lic]) ++ [x]). split.
    + rewrite (insertAt_run _ _ _ _ _ Harr).
      change (-1 >=? 0) with false. cbv iota.
      rewrite spliced_insert. cbv zeta.
      rewrite spliceStart_inrange by lia.
      replace (Z.to_nat (Z.of_nat (length (front ++ [lic])) + 1 + -1))
        with (length (front ++ [lic])) by lia.
      now rewrite take_ge, drop_ge by lia.
    + intros (l' & Hl' & Hn'). rewrite last_snoc in Hl'.
      injection Hl' as <-. contradiction.
Qed.
End LicenseInvariant.

(** * The choice of the TypeScript target *)

Section Target.

Lemma lowerAscii_e c :
  lowerAscii c = "e"%char ↔ c = "e"%char ∨ c = "E"%char.
Proof.
  destruct c as [[] [] [] [] [] [] [] []]; vm_compute;
    split; intros H;
    first [ discriminate H | reflexivity | left; reflexivity
          | right; reflexivity | destruct H as [H|H]; discriminate H ].
Qed.

Lemma lowerAscii_s c :
  lowerAscii c = "s"%char ↔ c = "s"%char ∨ c = "S"%char.
Proof.
  destruct c as [[] [] [] [] [] [] [] []]; vm_compute;
    split; intros H;
    first [ discriminate H | reflexivity | left; reflexivity
          | right; reflexivity | destruct H as [H|H]; discriminate H ].
Qed.

Lemma lowerAscii_5 c : lowerAscii c = "5"%char ↔ c = "5"%char.
Proof.
  destruct c as [[] [] [] [] [] [] [] []]; vm_compute;
    split; intros H; first [discriminate H | reflexivity].
Qed.

(** X23.  The ES5 TypeScript plugin is chosen exactly for the four
    spellings es5, eS5, Es5 and ES5 of [jsVersion]; every other string,
    also one with a space or a typo, silently selects the ES6 plugin. *)
Theorem es5_spellings jsVersion :
  String.eqb (toLowerCase jsVersion) "es5" = true
  ↔ jsVersion ∈ ["es5"; "eS5"; "Es5"; "ES5"].
Proof.
  rewrite String.eqb_eq, !elem_of_cons, elem_of_nil. split.
  - destruct jsVersion as [|c1 [|c2 [|c3 [|c4 rest]]]]; simpl;
      try discriminate.
    intros [= H1 H2 H3].
    apply (proj1 (lowerAscii_e c1)) in H1.
    apply (proj1 (lowerAscii_s c2)) in H2.
    apply (proj1 (lowerAscii_5 c3)) in H3. subst c3.
    destruct H1 as [-> | ->], H2 as [-> | ->]; tauto.
  - intros [-> | [-> | [-> | [-> | []]]]]; reflexivity.
Qed.
End Target.

Section PostbuildKeys.
Import Postbuild.

(** X24.  The edit of package.json adds no key and removes exactly
    scripts, volta and jest: the keys afterwards are the keys before
    without these three. *)
Theorem modifyPackageJson_keys (pkgJson : gmap string string) :
  ∃ pkgJson',
    modifyPackageJson pkgJson = Ok pkgJson'
    ∧ ∀ k, is_Some (pkgJson' !! k)
           ↔ is_Some (pkgJson !! k) ∧ k ∉ ["scripts"; "volta"; "jest"].
Proof.
  destruct (entry_points_rewritten pkgJson)
    as (p & Hrun & Hframe & Hrewritten).
  unfold modifyPackageJson. rewrite Hrun. eexists. split; [reflexivity|].
  assert (Hsame : ∀ k, is_Some (p !! k) ↔ is_Some (pkgJson !! k)).
  { intros k. destruct (decide (k ∈ ENTRY_POINTS)) as [Hin|Hout].
    - rewrite (Hrewritten k Hin). now rewrite fmap_is_Some.
    - now rewrite (Hframe k Hout). }
  intros k. rewrite !not_elem_of_cons.
  destruct (decide (k = "jest")) as [->|H1].
  { rewrite lookup_delete_eq. split; [intros []; discriminate|tauto]. }
  rewrite lookup_delete_ne by congruence.
  destruct (decide (k = "volta")) as [->|H2].
  { rewrite lookup_delete_eq. split; [intros []; discriminate|tauto]. }
  rewrite lookup_delete_ne by congruence.
  destruct (decide (k = "scripts")) as [->|H3].
  { rewrite lookup_delete_eq. split; [intros []; discriminate|tauto]. }
  rewrite lookup_delete_ne by congruence.
  rewrite Hsame. split; [|tauto]. intros Hk. split; [exact Hk|].
  repeat split; try assumption. apply not_elem_of_nil.
Qed.
End PostbuildKeys.

(** * Worked instances of the further properties *)

Section MoreInstances.
Import Postbuild.

Let numbers : Store nat := [CArr [1; 2; 3]%nat].

Let pipeline : list Plugin :=
  [nodeResolvePlugin; markAsBrowserBuildPlugin; sampleLicense].

Let pipelineStore : Store Plugin := [CArr pipeline].

(** A store whose config has a pipeline but no output object. *)
Let noOutputStore : Store Plugin :=
  [ CCfg {| input := None; output := None; plugins := Some 1%nat;
            treeshake := None; context := None |};
    CArr pipeline ].

(** A store whose config's output object has no file. *)
Let noFileStore : Store Plugin :=
  [CCfg sampleBase; COut emptyOutput; CArr pipeline].

Lemma noFileStore_base :
  BundleBase noFileStore 0 sampleBase pipeline emptyOutput.
Proof.
  split; [reflexivity|]. split.
  - exists 2%nat. split; reflexivity.
  - exists 1%nat. split; reflexivity.
Defined.

(** A working directory with the build directory and all four assets, and
    one where LICENSE is missing. *)
Let fullWorld : World :=
  {| fs := list_to_map [ ("build/npm", Dir); ("README.md", File "readme");
                         ("LICENSE", File "license");
                         ("package.json", File "{}");
                         (".npmignore", File "src") ];
     stderr := [] |}.

Let partWorld : World :=
  {| fs := list_to_map [("build/npm", Dir); ("README.md", File "readme")];
     stderr := [] |}.

(** [partWorld] after the copy of README.md. *)
Let readmeCopied : World :=
  {| fs := <["build/npm/README.md" := File "readme"]> (fs partWorld);
     stderr := [] |}.

Lemma insertAt_any_index_witness :
  ∃ (k : nat) (r : list nat),
    (k ≤ 3)%nat
    ∧ r = take k [1; 2; 3]%nat ++ [8; 9]%nat ++ drop k [1; 2; 3]%nat
    ∧ insertAt 0 (-9) [8; 9]%nat numbers = Ok (1%nat, numbers ++ [CArr r])
    ∧ length r = 5%nat
    ∧ arrayAt (numbers ++ [CArr r]) 0 = Some [1; 2; 3]%nat.
Proof.
  exact (insertAt_any_index numbers 0 [1; 2; 3]%nat (-9) [8; 9]%nat eq_refl).
Defined.

Lemma insertAt_below_range_witness :
  insertAt 0 (-5) [9%nat] numbers
  = Ok (1%nat, numbers ++ [CArr [1; 2; 9; 3]%nat]).
Proof.
  apply (insertAt_below_range numbers 0 [1; 2; 3]%nat (-5) [9%nat]);
    reflexivity.
Defined.

Lemma insertAt_block_witness :
  ∃ r : list nat,
    insertAt 0 (-2) [8; 9]%nat numbers = Ok (1%nat, numbers ++ [CArr r])
    ∧ r !! 2%nat = Some 8%nat
    ∧ r !! 3%nat = Some 9%nat.
Proof.
  destruct (insertAt_block numbers 0 [1; 2; 3]%nat (-2) [8; 9]%nat eq_refl)
    as (k & r & Hk & _ & Hrun & Hat & _); [simpl; lia|].
  exists r. split; [exact Hrun|]. subst k.
  split; [exact (Hat 0%nat 8%nat eq_refl) | exact (Hat 1%nat 9%nat eq_refl)].
Defined.

Lemma insertAt_nothing_witness :
  insertAt 0 7 [] numbers = Ok (1%nat, numbers ++ [CArr [1; 2; 3]%nat]).
Proof.
  exact (insertAt_nothing numbers 0 [1; 2; 3]%nat 7 eq_refl).
Defined.

Lemma getLastElement_last_witness :
  getLastElement 0 numbers = Ok (Some 3%nat, numbers).
Proof.
  exact (proj1 (getLastElement_last numbers 0 [1; 2; 3]%nat eq_refl)).
Defined.

Lemma last_after_insertAt_witness :
  bind (insertAt 0 (-1) [9%nat]) getLastElement numbers
  = Ok (Some 9%nat, numbers ++ [CArr [1; 2; 3; 9]%nat])
  ∧ bind (insertAt 0 (-2) [8; 9]%nat) getLastElement numbers
    = Ok (Some 3%nat, numbers ++ [CArr [1; 2; 8; 9; 3]%nat]).
Proof.
  destruct (last_after_insertAt numbers 0 [1; 2; 3]%nat 9%nat eq_refl)
    as [Hlast Hkept].
  split; [exact Hlast|].
  exact (Hkept [1; 2]%nat 3%nat [8; 9]%nat eq_refl).
Defined.

Lemma variants_without_plugins_witness :
  makeBundleConfigVariants 0 [CCfg (mkConfig None (Some 1%nat) None None None)]
  = Throw TypeError.
Proof.
  exact (variants_without_plugins
           [CCfg (mkConfig None (Some 1%nat) None None None)] 0
           (mkConfig None (Some 1%nat) None None None) eq_refl eq_refl).
Defined.

Lemma variants_without_output_witness :
  makeBundleConfigVariants 0 noOutputStore = Throw TypeError.
Proof.
  apply (variants_without_output noOutputStore 0 _ 1%nat pipeline eq_refl
           eq_refl eq_refl pipeline_licenseLast eq_refl).
Defined.

Lemma variants_are_valid_bases_witness :
  ∃ v1 v2 v3 σ',
    makeBundleConfigVariants 0 (sampleStore pipeline) = Ok ([v1; v2; v3], σ')
    ∧ ∃ r, makeBundleConfigVariants v1 σ' = Ok r.
Proof.
  destruct (variants_are_valid_bases (sampleStore pipeline) 0 sampleBase
              pipeline sampleOutput (sampleStore_base pipeline)
              pipeline_licenseLast)
    as (v1 & v2 & v3 & σ' & Hrun & Hall).
  exists v1, v2, v3, σ'. split; [exact Hrun|].
  destruct (Hall v1) as (c & ps' & o' & _ & _ & _ & _ & Hagain);
    [left | exact Hagain].
Defined.

Lemma variants_keep_base_settings_witness :
  ∃ v1 v2 v3 σ' c,
    makeBundleConfigVariants 0 (sampleStore pipeline) = Ok ([v1; v2; v3], σ')
    ∧ configAt σ' v2 = Some c
    ∧ context c = Some "window".
Proof.
  destruct (variants_keep_base_settings (sampleStore pipeline) 0 sampleBase
              pipeline sampleOutput (sampleStore_base pipeline)
              pipeline_licenseLast)
    as (v1 & v2 & v3 & σ' & Hrun & Hall).
  destruct (Hall v2) as (c & ol & o' & Hc & _ & Hctx & _); [right; left|].
  exists v1, v2, v3, σ', c. split; [exact Hrun|]. split; [exact Hc|].
  exact Hctx.
Defined.

Lemma variants_without_file_witness :
  ∃ v1 v2 v3 σ',
    makeBundleConfigVariants 0 noFileStore = Ok ([v1; v2; v3], σ')
    ∧ fileOf σ' v1 = Some "undefined.js"
    ∧ fileOf σ' v2 = Some "undefined.min.js"
    ∧ fileOf σ' v3 = Some "undefined.debug.min.js".
Proof.
  exact (variants_without_file noFileStore 0 sampleBase pipeline emptyOutput
           noFileStore_base pipeline_licenseLast eq_refl).
Defined.

Lemma base_bundle_shape_witness :
  ∃ l σ' c,
    makeBaseBundleConfig sampleEnv sampleOptions [] = Ok (l, σ')
    ∧ configAt σ' l = Some c
    ∧ context c = Some "window".
Proof.
  destruct (base_bundle_shape sampleEnv sampleOptions [] "abc1234" eq_refl)
    as (l & σ' & c & ol & o & Hrun & _ & _ & Hc & _ & _ & Hctx & _).
  exists l, σ', c. split; [exact Hrun|]. split; [exact Hc | exact Hctx].
Defined.

Lemma bundle_build_end_to_end_witness :
  ∃ v1 v2 v3 σ',
    bind (makeBaseBundleConfig sampleEnv sampleOptions)
      makeBundleConfigVariants []
    = Ok ([v1; v2; v3], σ')
    ∧ fileOf σ' v1 = Some "build/bundle.js".
Proof.
  destruct (bundle_build_end_to_end sampleEnv sampleOptions [] "abc1234"
              eq_refl)
    as (v1 & v2 & v3 & σ' & ts & lic & Hrun & _ & _ & Hfile & _).
  exists v1, v2, v3, σ'. split; [exact Hrun | exact Hfile].
Defined.

Lemma base_bundle_without_hash_witness :
  makeBaseBundleConfig (mkEnv [] sampleManifest None) sampleOptions []
  = Throw ExecError
  ∧ bind (makeBaseBundleConfig (mkEnv [] sampleManifest None) sampleOptions)
      makeBundleConfigVariants []
    = Throw ExecError.
Proof.
  exact (base_bundle_without_hash (mkEnv [] sampleManifest None)
           sampleOptions [] eq_refl).
Defined.

Lemma insertAt_and_license_last_witness :
  ∃ ps',
    insertAt 0 (-2) [custom "commonjs"] pipelineStore
    = Ok (1%nat, pipelineStore ++ [CArr ps'])
    ∧ licenseLast ps'.
Proof.
  destruct (insertAt_and_license_last pipelineStore 0 pipeline eq_refl
              pipeline_licenseLast) as [Hkeep _].
  exact (Hkeep [custom "commonjs"]).
Defined.

Lemma copyAssets_without_build_dir_witness :
  copyAssets {| fs := ∅; stderr := [] |}
  = Exit 1
      {| fs := ∅;
         stderr := [ "Directory build/npm DOES NOT exist";
                     "This script should only be executed after you've run `yarn build`." ] |}.
Proof.
  apply (copyAssets_without_build_dir {| fs := ∅; stderr := [] |}).
  reflexivity.
Defined.

Lemma forEachAsset_stops_at_missing_witness :
  forEachAsset ASSETS partWorld
  = Exit 1
      {| fs := <["build/npm/README.md" := File "readme"]> (fs partWorld);
         stderr := ["Asset LICENSE does not exist."] |}.
Proof.
  exact (forEachAsset_stops_at_missing ["README.md"] "LICENSE"
           ["package.json"; ".npmignore"] partWorld readmeCopied
           ltac:(vm_compute; reflexivity) ltac:(vm_compute; reflexivity)).
Defined.

Lemma copyAssets_ok_witness :
  ∃ w',
    copyAssets fullWorld = Continue w'
    ∧ fs w' !! "build/npm/LICENSE" = Some (File "license").
Proof.
  destruct (copyAssets_ok fullWorld) as (w' & Hrun & _ & Hcopied & _).
  - vm_compute. reflexivity.
  - intros a Ha. unfold ASSETS in Ha.
    rewrite !elem_of_cons, elem_of_nil in Ha.
    destruct Ha as [-> | [-> | [-> | [-> | []]]]];
      eexists; vm_compute; reflexivity.
  - intros a Ha. unfold ASSETS in Ha.
    rewrite !elem_of_cons, elem_of_nil in Ha.
    destruct Ha as [-> | [-> | [-> | [-> | []]]]];
      vm_compute; discriminate.
  - exists w'. split; [exact Hrun|].
    assert (Hin : "LICENSE" ∈ ASSETS) by (unfold ASSETS; right; left).
    etransitivity; [exact (Hcopied "LICENSE" Hin) | vm_compute; reflexivity].
Defined.
End MoreInstances.
